(** * Tenant management: occupancy, metering and invoicing core

    A shallow embedding of the lease/room state machine
    ([core/models.py], [core/services.py]), the electricity billing
    calculator ([core/billing/electricity.py]) and the invoice and badge
    logic of [core/views.py] and [core/api/api.py], together with the
    properties the specification states about them.

    Modelling conventions
    - [decimal.Decimal] values are finite decimals: an integer coefficient
      and a power-of-ten exponent.  Arithmetic is exact (the 28-digit
      context precision of Python is far above the 12-digit columns of the
      schema); NaN and infinities are not represented.
    - [datetime.date] is a record of year, month and day; day arithmetic
      goes through the proleptic Gregorian ordinal, as in CPython.
    - The database is a record of tables; a table is the list of its rows
      in insertion order.  A related object ([lease.room], [lease.tenant])
      is resolved through its foreign key against the current table.
    - Code that touches the database is a function from a database to an
      outcome and a database.  An exception keeps the writes made before
      it, unless the code runs under [transaction.atomic], which restores
      the database it started from. *)

From Stdlib Require Import ZArith List String Ascii Bool Lia QArith Qround Qabs.
From Stdlib Require DecimalString.
Import ListNotations.
Local Open Scope string_scope.
Local Open Scope Z_scope.

(** ** Exceptions and outcomes *)

Inductive exn : Type :=
| ValidationError (msg : string)   (* django.core.exceptions.ValidationError *)
| ValueError (msg : string)
| InvalidOperation                 (* decimal.InvalidOperation *)
| OverflowError
| DoesNotExist (model : string)
| IntegrityError
| DatabaseError
| Http404.

Inductive result (A : Type) : Type :=
| Ok (a : A)
| Raise (e : exn).
Arguments Ok {A} a.
Arguments Raise {A} e.

Definition rbind {A B} (r : result A) (k : A -> result B) : result B :=
  match r with
  | Ok a => k a
  | Raise e => Raise e
  end.

Declare Scope res_scope.
Delimit Scope res_scope with res.
Notation "'let?' x ':=' r 'in' k" := (rbind r (fun x => k))
  (at level 10, x pattern, r at level 100, k at level 200) : res_scope.

(** [str(n)] for an integer. *)
Definition string_of_Z (n : Z) : string :=
  DecimalString.NilZero.string_of_int (Z.to_int n).

(** ** Decimals *)

Module Dec.

Record Decimal : Type := mk { coef : Z; exp : Z }.

Definition of_Z (n : Z) : Decimal := mk n 0.
Definition zero : Decimal := of_Z 0.

(** The coefficient of [d] once written with the smaller exponent [e]. *)
Definition scaled (d : Decimal) (e : Z) : Z := coef d * 10 ^ (exp d - e).

Definition add (a b : Decimal) : Decimal :=
  let e := Z.min (exp a) (exp b) in mk (scaled a e + scaled b e) e.

Definition sub (a b : Decimal) : Decimal :=
  let e := Z.min (exp a) (exp b) in mk (scaled a e - scaled b e) e.

Definition mul (a b : Decimal) : Decimal :=
  mk (coef a * coef b) (exp a + exp b).

Definition compare (a b : Decimal) : comparison :=
  let e := Z.min (exp a) (exp b) in Z.compare (scaled a e) (scaled b e).

Definition ltb (a b : Decimal) : bool :=
  match compare a b with Lt => true | _ => false end.
Definition leb (a b : Decimal) : bool :=
  match compare a b with Gt => false | _ => true end.
Definition eqb (a b : Decimal) : bool :=
  match compare a b with Eq => true | _ => false end.

(** Truth value of a decimal: [bool(d)] is [d != 0]. *)
Definition truthy (d : Decimal) : bool := negb (coef d =? 0).

(** [d.quantize(Decimal('0.01'), rounding=ROUND_HALF_UP)] for the target
    exponent [e]: zeros are appended when [d] is coarser than [e];
    otherwise the digits below [e] are dropped and the magnitude grows by
    one unit when the first dropped digit is 5 or more. *)
Definition quantize_half_up (e : Z) (d : Decimal) : Decimal :=
  if e <=? exp d then mk (coef d * 10 ^ (exp d - e)) e
  else
    let p := 10 ^ (e - exp d) in
    let q := Z.abs (coef d) / p in
    let r := Z.abs (coef d) mod p in
    mk (Z.sgn (coef d) * (if p <=? 2 * r then q + 1 else q)) e.

(** The rational number a decimal denotes. *)
Definition value (d : Decimal) : Q :=
  if 0 <=? exp d then inject_Z (coef d * 10 ^ exp d)
  else Qmake (coef d) (Z.to_pos (10 ^ (- exp d))).

End Dec.

(** ** Dates ([datetime.date]) *)

Module Date.

Record date : Type := mk { year : Z; month : Z; day : Z }.

Definition is_leap (y : Z) : bool :=
  (y mod 4 =? 0) && (negb (y mod 100 =? 0) || (y mod 400 =? 0)).

Definition days_in_month (y m : Z) : Z :=
  if (m =? 2) && is_leap y then 29
  else nth (Z.to_nat m) [-1; 31; 28; 31; 30; 31; 30; 31; 31; 30; 31; 30; 31] 0.

Definition days_before_year (y : Z) : Z :=
  let p := y - 1 in p * 365 + p / 4 - p / 100 + p / 400.

Definition DAYS_BEFORE_MONTH : list Z :=
  [-1; 0; 31; 59; 90; 120; 151; 181; 212; 243; 273; 304; 334].

Definition days_before_month (y m : Z) : Z :=
  nth (Z.to_nat m) DAYS_BEFORE_MONTH 0
  + (if (2 <? m) && is_leap y then 1 else 0).

(** [date(y, m, d)]: the constructor checks its fields (messages as in
    CPython 3.12). *)
Definition make (y m d : Z) : result date :=
  if negb ((1 <=? y) && (y <=? 9999)) then
    Raise (ValueError ("year " ++ string_of_Z y ++ " is out of range")%string)
  else if negb ((1 <=? m) && (m <=? 12)) then
    Raise (ValueError "month must be in 1..12")
  else if negb ((1 <=? d) && (d <=? days_in_month y m)) then
    Raise (ValueError "day is out of range for month")
  else Ok (mk y m d).

Definition toordinal (d : date) : Z :=
  days_before_year (year d) + days_before_month (year d) (month d) + day d.

Definition MAXORDINAL : Z := 3652059.

(** CPython's [_ord2ymd]. *)
Definition fromordinal (o : Z) : date :=
  let n := o - 1 in
  let n400 := n / 146097 in
  let n := n mod 146097 in
  let n100 := n / 36524 in
  let n := n mod 36524 in
  let n4 := n / 1461 in
  let n := n mod 1461 in
  let n1 := n / 365 in
  let n := n mod 365 in
  let y := n400 * 400 + 1 + n100 * 100 + n4 * 4 + n1 in
  if (n1 =? 4) || (n100 =? 4) then mk (y - 1) 12 31
  else
    let leapyear := (n1 =? 3) && (negb (n4 =? 24) || (n100 =? 3)) in
    let m := Z.shiftr (n + 50) 5 in
    let preceding :=
      nth (Z.to_nat m) DAYS_BEFORE_MONTH 0
      + (if (2 <? m) && leapyear then 1 else 0) in
    if n <? preceding then
      let m' := m - 1 in
      let preceding' :=
        preceding
        - (nth (Z.to_nat m') [-1; 31; 28; 31; 30; 31; 30; 31; 31; 30; 31; 30; 31] 0
           + (if (m' =? 2) && leapyear then 1 else 0)) in
      mk y m' (n - preceding' + 1)
    else mk y m (n - preceding + 1).

(** [d + timedelta(days=n)] (also [d + relativedelta(days=n)]). *)
Definition add_days (d : date) (n : Z) : result date :=
  let o := toordinal d + n in
  if (0 <? o) && (o <=? MAXORDINAL) then Ok (fromordinal o)
  else Raise OverflowError.

(** Dates compare as the tuples (year, month, day). *)
Definition compare (a b : date) : comparison :=
  match Z.compare (year a) (year b) with
  | Eq =>
    match Z.compare (month a) (month b) with
    | Eq => Z.compare (day a) (day b)
    | c => c
    end
  | c => c
  end.

Definition ltb (a b : date) : bool :=
  match compare a b with Lt => true | _ => false end.
Definition leb (a b : date) : bool :=
  match compare a b with Gt => false | _ => true end.
Definition eqb (a b : date) : bool :=
  match compare a b with Eq => true | _ => false end.

End Date.

Abbreviation date := Date.date.

Abbreviation Decimal := Dec.Decimal.

(** ** core/billing/electricity.py: the pure calculator *)

Definition negative_delta_msg : string :=
  "Negative delta: current reading cannot be less than previous reading".

Definition compute_units (previous current : option Decimal) : result Decimal :=
  match previous with
  | None => Ok (Dec.of_Z 0)
  | Some p =>
    match current with
    | None => Ok (Dec.of_Z 0)
    | Some c =>
      let delta := Dec.sub c p in
      if Dec.coef delta <? 0 then Raise (ValueError negative_delta_msg)
      else Ok delta
    end
  end.

Record Bill : Type := mkBill {
  bill_units : Decimal;
  bill_rate : Decimal;
  bill_total : Decimal
}.

Definition compute_bill (previous_reading current_reading : option Decimal)
    (rate : Decimal) : result Bill :=
  (let? units := compute_units previous_reading current_reading in
   let total := Dec.quantize_half_up (-2) (Dec.mul units rate) in
   Ok (mkBill units rate total))%res.


(** ** core/models.py: the schema *)

Inductive RoomStatus : Type := vacant | occupied | maintenance.
Inductive LeaseStatus : Type := active | ended.
Inductive InvoiceType : Type := rent | electricity | combined.

Definition RoomStatus_eqb (a b : RoomStatus) : bool :=
  match a, b with
  | vacant, vacant | occupied, occupied | maintenance, maintenance => true
  | _, _ => false
  end.

Definition LeaseStatus_eqb (a b : LeaseStatus) : bool :=
  match a, b with
  | active, active | ended, ended => true
  | _, _ => false
  end.

Definition InvoiceType_eqb (a b : InvoiceType) : bool :=
  match a, b with
  | rent, rent | electricity, electricity | combined, combined => true
  | _, _ => false
  end.

(** Building and floor of a room play no part in the operations below
    and are left out. *)
Record Room : Type := mkRoom {
  room_id : Z;
  room_number : string;
  room_status : RoomStatus
}.

Record Tenant : Type := mkTenant {
  tenant_id : Z;
  full_name : string
}.

(** [lease_pk] is [None] for an instance that was never saved. *)
Record Lease : Type := mkLease {
  lease_pk : option Z;
  lease_tenant : Z;
  lease_room : Z;
  start_date : date;
  end_date : option date;
  monthly_rent : Decimal;
  deposit : Decimal;
  billing_day : Z;
  lease_status : LeaseStatus
}.

Record RentPayment : Type := mkRentPayment {
  payment_id : Z;
  payment_lease : Z;
  paid_on : date;
  payment_amount : Decimal;
  payment_method : string;
  payment_notes : string
}.

Record MeterReading : Type := mkMeterReading {
  reading_id : Z;
  reading_room : Z;
  reading_date : date;
  reading_value : Decimal
}.

(** The JSON object of [Invoice.meta]: a number is kept as the decimal
    it is converted from, [None] is JSON null. *)
Definition Meta : Type := list (string * option Decimal).

Record Invoice : Type := mkInvoice {
  invoice_id : Z;
  invoice_room : Z;
  invoice_month : date;
  invoice_type : InvoiceType;
  invoice_subtotal : Decimal;
  invoice_tax : Decimal;
  invoice_total : Decimal;
  invoice_meta : Meta
}.

(** An item label is kept as the values its f-string interpolates. *)
Inductive Label : Type :=
| RentFor (month : date)
| ElectricityUnits (units : option Decimal)
| ElectricityReadings (year month : Z) (prev curr : option Decimal)
    (units rate : Decimal).

Record InvoiceItem : Type := mkInvoiceItem {
  item_id : Z;
  item_invoice : Z;
  item_label : Label;
  item_qty : Decimal;
  item_rate : Decimal;
  item_amount : Decimal
}.

Record DB : Type := mkDB {
  rooms : list Room;
  tenants : list Tenant;
  leases : list Lease;
  payments : list RentPayment;
  readings : list MeterReading;
  invoices : list Invoice;
  items : list InvoiceItem;
  settings : list (string * string);
  next_lease_id : Z;
  next_payment_id : Z;
  next_invoice_id : Z;
  next_item_id : Z
}.

Definition set_rooms (v : list Room) (db : DB) : DB :=
  mkDB v (tenants db) (leases db) (payments db) (readings db) (invoices db)
    (items db) (settings db) (next_lease_id db) (next_payment_id db)
    (next_invoice_id db) (next_item_id db).

Definition set_leases (v : list Lease) (n : Z) (db : DB) : DB :=
  mkDB (rooms db) (tenants db) v (payments db) (readings db) (invoices db)
    (items db) (settings db) n (next_payment_id db)
    (next_invoice_id db) (next_item_id db).

Definition set_payments (v : list RentPayment) (n : Z) (db : DB) : DB :=
  mkDB (rooms db) (tenants db) (leases db) v (readings db) (invoices db)
    (items db) (settings db) (next_lease_id db) n
    (next_invoice_id db) (next_item_id db).

Definition set_invoices (v : list Invoice) (n : Z) (db : DB) : DB :=
  mkDB (rooms db) (tenants db) (leases db) (payments db) (readings db) v
    (items db) (settings db) (next_lease_id db) (next_payment_id db)
    n (next_item_id db).

Definition set_items (v : list InvoiceItem) (n : Z) (db : DB) : DB :=
  mkDB (rooms db) (tenants db) (leases db) (payments db) (readings db)
    (invoices db) v (settings db) (next_lease_id db) (next_payment_id db)
    (next_invoice_id db) n.

(** ** Database code: state and exceptions *)

Definition M (A : Type) : Type := DB -> result A * DB.

Definition ret {A} (a : A) : M A := fun db => (Ok a, db).
Definition raise {A} (e : exn) : M A := fun db => (Raise e, db).
Definition lift {A} (r : result A) : M A := fun db => (r, db).
Definition get : M DB := fun db => (Ok db, db).
Definition modify (f : DB -> DB) : M unit := fun db => (Ok tt, f db).

Definition bind {A B} (m : M A) (k : A -> M B) : M B :=
  fun db =>
    match m db with
    | (Ok a, db') => k a db'
    | (Raise e, db') => (Raise e, db')
    end.

(** [with transaction.atomic():] / [@transaction.atomic]. *)
Definition atomic {A} (m : M A) : M A :=
  fun db =>
    match m db with
    | (Raise e, _) => (Raise e, db)
    | r => r
    end.

(** [try: m except ValueError as e: h(str(e))]. *)
Definition catch_ValueError {A} (m : M A) (h : string -> M A) : M A :=
  fun db =>
    match m db with
    | (Raise (ValueError msg), db') => h msg db'
    | r => r
    end.

Declare Scope db_scope.
Delimit Scope db_scope with db.
Notation "x <- m ;; k" := (bind m (fun x => k))
  (at level 61, m at next level, right associativity) : db_scope.
Notation "m ;;; k" := (bind m (fun _ => k))
  (at level 61, right associativity) : db_scope.

(** ** Queries *)

(** [.order_by('-key')] on dates: a stable insertion sort, latest first. *)
Fixpoint insert_desc {A} (key : A -> date) (x : A) (l : list A) : list A :=
  match l with
  | [] => [x]
  | y :: t =>
    if Date.ltb (key x) (key y) then y :: insert_desc key x t
    else x :: l
  end.

Definition order_by_desc {A} (key : A -> date) (l : list A) : list A :=
  fold_right (insert_desc key) [] l.

Definition first {A} (l : list A) : option A := hd_error l.

Definition exists_ {A} (l : list A) : bool :=
  match l with [] => false | _ => true end.

Definition pk_is (k : Z) (l : Lease) : bool :=
  match lease_pk l with Some k' => k' =? k | None => false end.

(** [not self.pk] is true for [None] and for [0]. *)
Definition pk_truthy (l : Lease) : bool :=
  match lease_pk l with Some k => negb (k =? 0) | None => false end.

(** [Lease.objects.filter(room=r, status='active')]; the model's default
    ordering is [-start_date]. *)
Definition active_leases (r : Z) (db : DB) : list Lease :=
  order_by_desc start_date
    (filter (fun l => (lease_room l =? r) && LeaseStatus_eqb (lease_status l) active)
       (leases db)).

Definition find_room (r : Z) (db : DB) : option Room :=
  find (fun x => room_id x =? r) (rooms db).

Definition find_tenant (t : Z) (db : DB) : option Tenant :=
  find (fun x => tenant_id x =? t) (tenants db).

Definition find_lease (k : Z) (db : DB) : option Lease :=
  find (pk_is k) (leases db).

(** Following a foreign key to a missing row raises [DoesNotExist]. *)
Definition related_room (r : Z) : M Room :=
  fun db =>
    match find_room r db with
    | Some x => (Ok x, db)
    | None => (Raise (DoesNotExist "Room"), db)
    end.

Definition related_tenant (t : Z) : M Tenant :=
  fun db =>
    match find_tenant t db with
    | Some x => (Ok x, db)
    | None => (Raise (DoesNotExist "Tenant"), db)
    end.

Definition with_status (r : Z) (st : RoomStatus) (x : Room) : Room :=
  if room_id x =? r then mkRoom (room_id x) (room_number x) st else x.

(** [room.status = st; room.save()] on the row of room [r]. *)
Definition room_set_status (r : Z) (st : RoomStatus) : M unit :=
  (_ <- related_room r ;;
   modify (fun db => set_rooms (map (with_status r st) (rooms db)) db))%db.

(** ** Lease.clean and Lease.save *)

Definition lease_with_pk (k : Z) (l : Lease) : Lease :=
  mkLease (Some k) (lease_tenant l) (lease_room l) (start_date l) (end_date l)
    (monthly_rent l) (deposit l) (billing_day l) (lease_status l).

Definition is_active (l : Lease) : bool := LeaseStatus_eqb (lease_status l) active.
Definition is_ended (l : Lease) : bool := LeaseStatus_eqb (lease_status l) ended.

Definition same_pk (self l : Lease) : bool :=
  match lease_pk self with Some k => pk_is k l | None => false end.

(** [self.end_date and self.end_date <= self.start_date] *)
Definition end_not_after_start (self : Lease) : bool :=
  match end_date self with
  | Some e => Date.leb e (start_date self)
  | None => false
  end.

Definition Lease_clean (self : Lease) : M unit :=
  (if end_not_after_start self then
     raise (ValidationError "End date must be after start date.")
   else if is_active self && negb (pk_truthy self) then
     room <- related_room (lease_room self) ;;
     db <- get ;;
     (* .exclude(pk=None) removes no row *)
     if exists_ (active_leases (room_id room) db) then
       raise (ValidationError "This room already has an active lease.")
     else ret tt
   else if is_active self && pk_truthy self then
     room <- related_room (lease_room self) ;;
     db <- get ;;
     if exists_ (filter (fun l => negb (same_pk self l))
                   (active_leases (room_id room) db)) then
       raise (ValidationError "This room already has another active lease.")
     else ret tt
   else ret tt)%db.

(** The constraints migration 0003 puts on the lease table. *)
Definition end_date_after_start_date (l : Lease) : bool :=
  match end_date l with
  | Some e => Date.ltb (start_date l) e
  | None => true
  end.

Definition monthly_rent_positive (l : Lease) : bool := 0 <? Dec.coef (monthly_rent l).

Definition unique_active_lease_per_room (row : Lease) (others : list Lease) : bool :=
  negb (is_active row
        && existsb (fun l => (lease_room l =? lease_room row) && is_active l) others).

(** [super().save()]: an instance without primary key is inserted under
    the next identifier; one with a primary key updates its row, or is
    inserted when no row has that key.  A violated constraint raises
    [IntegrityError] and writes nothing. *)
Definition Model_save_lease (self : Lease) : M Lease :=
  fun db =>
    let k := match lease_pk self with Some k => k | None => next_lease_id db end in
    let row := lease_with_pk k self in
    let others := filter (fun l => negb (pk_is k l)) (leases db) in
    let present := existsb (pk_is k) (leases db) in
    if negb (end_date_after_start_date row && monthly_rent_positive row
             && unique_active_lease_per_room row others) then
      (Raise IntegrityError, db)
    else
      match lease_pk self, present with
      | None, true => (Raise IntegrityError, db)
      | _, true =>
        (Ok row,
         set_leases (map (fun l => if pk_is k l then row else l) (leases db))
           (next_lease_id db) db)
      | _, false =>
        (Ok row,
         set_leases (leases db ++ [row]) (Z.max (next_lease_id db) (k + 1)) db)
      end.

Definition Lease_save (self : Lease) : M Lease :=
  (Lease_clean self ;;;
   (if is_active self && negb (pk_truthy self) then
      (* New active lease - set room to occupied *)
      room_set_status (lease_room self) occupied
    else if is_ended self && pk_truthy self then
      (* Lease ended - set room to vacant *)
      room_set_status (lease_room self) vacant
    else ret tt) ;;;
   Model_save_lease self)%db.

(** [lease.delete()] (core/api/api.py). *)
Definition Lease_delete (k : Z) : M unit :=
  modify (fun db =>
    set_leases (filter (fun l => negb (pk_is k l)) (leases db))
      (next_lease_id db) db).

(** [room.save(update_fields=['status'])]: an update that matches no
    row raises [DatabaseError]. *)
Definition room_update_status (r : Z) (st : RoomStatus) : M unit :=
  fun db =>
    match find_room r db with
    | Some _ => (Ok tt, set_rooms (map (with_status r st) (rooms db)) db)
    | None => (Raise DatabaseError, db)
    end.

(** [Invoice.objects.create(...)]; (room, month, type) is unique. *)
Definition same_invoice_key (r : Z) (m : date) (t : InvoiceType) (i : Invoice) : bool :=
  (invoice_room i =? r) && Date.eqb (invoice_month i) m
  && InvoiceType_eqb (invoice_type i) t.

Definition Invoice_create (r : Z) (m : date) (t : InvoiceType)
    (subtotal tax total : Decimal) (meta : Meta) : M Invoice :=
  fun db =>
    if existsb (same_invoice_key r m t) (invoices db) then
      (Raise IntegrityError, db)
    else
      let inv := mkInvoice (next_invoice_id db) r m t subtotal tax total meta in
      (Ok inv, set_invoices (invoices db ++ [inv]) (next_invoice_id db + 1) db).

Definition InvoiceItem_create (invoice : Invoice) (label : Label)
    (qty rate amount : Decimal) : M InvoiceItem :=
  fun db =>
    let it := mkInvoiceItem (next_item_id db) (invoice_id invoice) label
                qty rate amount in
    (Ok it, set_items (items db ++ [it]) (next_item_id db + 1) db).

Definition RentPayment_create (lease : Z) (on : date) (amount : Decimal)
    (method notes : string) : M RentPayment :=
  fun db =>
    let p := mkRentPayment (next_payment_id db) lease on amount method notes in
    (Ok p, set_payments (payments db ++ [p]) (next_payment_id db + 1) db).

(** ** core/services.py *)

Definition conflict_msg (room : Room) (holder : Tenant) : string :=
  ("Room " ++ room_number room ++ " already has an active lease with "
   ++ full_name holder)%string.

(** [LeaseService.create_lease] *)
Definition create_lease (tenant : Tenant) (room : Room) (start : date)
    (rent_amount dep : Decimal) (bday : Z) : M Lease :=
  atomic
    (db <- get ;;
     match first (active_leases (room_id room) db) with
     | Some existing_active =>
       holder <- related_tenant (lease_tenant existing_active) ;;
       raise (ValidationError (conflict_msg room holder))
     | None =>
       if Dec.coef rent_amount <=? 0 then
         raise (ValidationError "Monthly rent must be positive")
       else if negb ((1 <=? bday) && (bday <=? 28)) then
         raise (ValidationError "Billing day must be between 1 and 28")
       else
         lease <- Lease_save
                    (mkLease None (tenant_id tenant) (room_id room) start None
                       rent_amount dep bday active) ;;
         room_update_status (room_id room) occupied ;;;
         current_month <- lift (Date.make (Date.year start) (Date.month start) 1) ;;
         invoice <- Invoice_create (room_id room) current_month rent
                      rent_amount (Dec.of_Z 0) rent_amount
                      [("rent", Some rent_amount)] ;;
         InvoiceItem_create invoice (RentFor current_month) (Dec.of_Z 1)
           rent_amount rent_amount ;;;
         ret lease
     end)%db.

Definition lease_ended_on (l : Lease) (e : date) : Lease :=
  mkLease (lease_pk l) (lease_tenant l) (lease_room l) (start_date l) (Some e)
    (monthly_rent l) (deposit l) (billing_day l) ended.

(** [LeaseService.end_lease] *)
Definition end_lease (lease : Lease) (e : date) : M Lease :=
  atomic
    (if negb (is_active lease) then
       raise (ValidationError "Lease is not active")
     else if Date.ltb e (start_date lease) then
       raise (ValidationError "End date cannot be before start date")
     else
       saved <- Lease_save (lease_ended_on lease e) ;;
       related_room (lease_room lease) ;;;
       room_update_status (lease_room lease) vacant ;;;
       ret saved)%db.

(** [PaymentService.record_payment]; the lease is given by its row. *)
Definition record_payment (lease : Lease) (amount : Decimal) (on : date)
    (method notes : string) : M RentPayment :=
  atomic
    (if Dec.coef amount <=? 0 then
       raise (ValidationError "Payment amount must be positive")
     else if negb (is_active lease) then
       raise (ValidationError "Lease must be active")
     else
       match lease_pk lease with
       | Some k => RentPayment_create k on amount method notes
       | None => raise (ValueError "unsaved related object")
       end)%db.

Definition opt_truthy (d : option Decimal) : bool :=
  match d with Some x => Dec.truthy x | None => false end.

Definition opt_dec (d : option Decimal) : Decimal :=
  match d with Some x => x | None => Dec.of_Z 0 end.

(** [InvoiceService.create_monthly_invoice] *)
Definition create_monthly_invoice (room : Room) (month : date) (rent_amount : Decimal)
    (electricity_units electricity_rate : option Decimal) : M Invoice :=
  atomic
    (let both := opt_truthy electricity_units && opt_truthy electricity_rate in
     let electricity_amount :=
       if both then Dec.mul (opt_dec electricity_units) (opt_dec electricity_rate)
       else Dec.of_Z 0 in
     let subtotal :=
       if both then Dec.add rent_amount electricity_amount else rent_amount in
     invoice <- Invoice_create (room_id room) month rent subtotal (Dec.of_Z 0) subtotal
                  [("rent", Some rent_amount);
                   ("units", electricity_units);
                   ("rate", if opt_truthy electricity_rate then electricity_rate else None);
                   ("electricity_total", Some electricity_amount)] ;;
     InvoiceItem_create invoice (RentFor month) (Dec.of_Z 1) rent_amount rent_amount ;;;
     (if 0 <? Dec.coef electricity_amount then
        InvoiceItem_create invoice (ElectricityUnits electricity_units)
          (opt_dec electricity_units) (opt_dec electricity_rate) electricity_amount ;;;
        ret tt
      else ret tt) ;;;
     ret invoice)%db.

(** ** core/billing/electricity.py: database lookups *)

(** [Decimal(s)] for plain numeric strings: an optional sign, digits
    with an optional fraction, an optional exponent.  Anything else is
    refused ([decimal.InvalidOperation]). *)
Definition digit_of (c : ascii) : option Z :=
  let n := Z.of_nat (nat_of_ascii c) in
  if (48 <=? n) && (n <=? 57) then Some (n - 48) else None.

Fixpoint read_digits (s : string) (acc count : Z) : Z * Z * string :=
  match s with
  | String c t =>
    match digit_of c with
    | Some d => read_digits t (acc * 10 + d) (count + 1)
    | None => (acc, count, s)
    end
  | EmptyString => (acc, count, s)
  end.

Definition read_sign (s : string) : Z * string :=
  match s with
  | String "-" t => (-1, t)
  | String "+" t => (1, t)
  | _ => (1, s)
  end.

Definition Decimal_of_string (s : string) : option Decimal :=
  let '(sg, s1) := read_sign s in
  let '(ip, ni, s2) := read_digits s1 0 0 in
  let '(c, nf, s3) :=
    match s2 with
    | String "." t => read_digits t ip 0
    | _ => (ip, 0, s2)
    end in
  if ni + nf =? 0 then None
  else
    match s3 with
    | EmptyString => Some (Dec.mk (sg * c) (- nf))
    | String e t =>
      if (Ascii.eqb e "e" || Ascii.eqb e "E")%bool then
        let '(esg, t1) := read_sign t in
        let '(ev, ne, t2) := read_digits t1 0 0 in
        match t2 with
        | EmptyString =>
          if ne =? 0 then None else Some (Dec.mk (sg * c) (esg * ev - nf))
        | _ => None
        end
      else None
    end.

(** [Setting.get_value(key, default)] *)
Definition Setting_get_value (key default : string) (db : DB) : string :=
  match find (fun kv => String.eqb (fst kv) key) (settings db) with
  | Some kv => snd kv
  | None => default
  end.

Definition get_rate : M Decimal :=
  fun db =>
    match Decimal_of_string (Setting_get_value "electricity_rate_per_unit" "0" db) with
    | Some d => (Ok d, db)
    | None => (Raise InvalidOperation, db)
    end.

Definition get_month_readings (room year month : Z)
    : M (option Decimal * option Decimal) :=
  (first_of_month <- lift (Date.make year month 1) ;;
   db <- get ;;
   let previous_reading :=
     first (order_by_desc reading_date
              (filter (fun r => (reading_room r =? room)
                                && Date.ltb (reading_date r) first_of_month)
                 (readings db))) in
   first_of_next_month <-
     lift (if month =? 12 then Date.make (year + 1) 1 1
           else Date.make year (month + 1) 1) ;;
   let current_reading :=
     first (order_by_desc reading_date
              (filter (fun r => (reading_room r =? room)
                                && Date.leb first_of_month (reading_date r)
                                && Date.ltb (reading_date r) first_of_next_month)
                 (readings db))) in
   ret (option_map reading_value previous_reading,
        option_map reading_value current_reading))%db.

(** The dictionary [calc_month_bill] returns; [br_error] is the ['error']
    key, present only in the soft-failure shape.  The display strings
    ['room'] and ['month'] are kept as the room identifier and the year
    and month they are formatted from. *)
Record BillResult : Type := mkBillResult {
  br_room_id : Z;
  br_year : Z;
  br_month : Z;
  br_previous_reading : option Decimal;
  br_current_reading : option Decimal;
  br_units : Decimal;
  br_rate : Decimal;
  br_total : Decimal;
  br_error : option string
}.

Definition calc_month_bill (room year month : Z) : M BillResult :=
  (db <- get ;;
   match find_room room db with
   | None =>
     raise (ValueError ("Room with id " ++ string_of_Z room ++ " does not exist")%string)
   | Some _ =>
     pc <- get_month_readings room year month ;;
     rate <- get_rate ;;
     match compute_bill (fst pc) (snd pc) rate with
     | Raise (ValueError e) =>
       ret (mkBillResult room year month (fst pc) (snd pc)
              (Dec.of_Z 0) rate (Dec.of_Z 0) (Some e))
     | Raise e => raise e
     | Ok bill_details =>
       ret (mkBillResult room year month (fst pc) (snd pc)
              (bill_units bill_details) (bill_rate bill_details)
              (bill_total bill_details) None)
     end
   end)%db.

(** ** core/views.py *)

Record Snapshot : Type := mkSnapshot {
  snap_room : Room;
  snap_active_lease : option Lease;
  snap_tenant_name : option string;
  snap_rent : option Decimal;
  snap_lease_start : option date;
  snap_lease_end : option date;
  snap_last_invoice : option Invoice;
  snap_last_invoice_status : option string;
  snap_last_invoice_due_date : option date;
  snap_last_invoice_elec_units : option Decimal;
  snap_last_invoice_elec_amount : option Decimal;
  snap_badge : string;
  snap_badge_class : string
}.

(** [meta.get(key)] *)
Definition meta_get (key : string) (m : Meta) : option Decimal :=
  match find (fun kv => String.eqb (fst kv) key) m with
  | Some kv => snd kv
  | None => None
  end.

(** [RentPayment.objects.filter(lease=l, paid_on__year=y, paid_on__month=m)] *)
Definition payments_in_month (l : Lease) (y m : Z) (db : DB) : list RentPayment :=
  filter (fun p =>
            match lease_pk l with
            | Some k => payment_lease p =? k
            | None => false
            end
            && (Date.year (paid_on p) =? y) && (Date.month (paid_on p) =? m))
    (payments db).

(** [Invoice.objects.filter(room=room).order_by('-month')[:6]] *)
Definition recent_invoices_of (room : Room) (db : DB) : list Invoice :=
  firstn 6 (order_by_desc invoice_month
              (filter (fun i => invoice_room i =? room_id room) (invoices db))).

(** [get_room_finance_snapshot(room)].  [active_leases_list] and
    [current_invoices_list] are the prefetched attributes of [room], [None]
    when the attribute is absent; [today] is [timezone.now().date()]. *)
Definition get_room_finance_snapshot (room : Room)
    (active_leases_list : option (list Lease))
    (current_invoices_list : option (list Invoice)) (today : date) : M Snapshot :=
  (db <- get ;;
   let active_lease :=
     match active_leases_list with
     | Some l => first l
     | None => first (active_leases (room_id room) db)
     end in
   match active_lease with
   | None =>
     if RoomStatus_eqb (room_status room) maintenance then
       ret (mkSnapshot room None None None None None None None None None None
              "Maintenance" "bg-yellow-100 text-yellow-700")
     else
       ret (mkSnapshot room None None None None None None None None None None
              "Vacant" "bg-gray-100 text-gray-700")
   | Some lease =>
     tenant <- related_tenant (lease_tenant lease) ;;
     let snap := mkSnapshot room (Some lease) (Some (full_name tenant))
                   (Some (monthly_rent lease)) (Some (start_date lease))
                   (end_date lease) in
     let recent_invoices :=
       match current_invoices_list with
       | Some l => l
       | None => recent_invoices_of room db
       end in
     match first recent_invoices with
     | Some last_invoice =>
       let payment_exists :=
         exists_ (payments_in_month lease (Date.year (invoice_month last_invoice))
                    (Date.month (invoice_month last_invoice)) db) in
       due_date <- lift (Date.add_days (invoice_month last_invoice) 5) ;;
       let snap := snap (Some last_invoice)
                     (Some (if payment_exists then "paid" else "unpaid"))
                     (Some due_date)
                     (meta_get "units" (invoice_meta last_invoice))
                     (meta_get "total" (invoice_meta last_invoice)) in
       if payment_exists then
         ret (snap "OK" "bg-green-100 text-green-700")
       else if Date.ltb due_date today then
         ret (snap "Overdue" "bg-red-100 text-red-700")
       else
         soon <- lift (Date.add_days due_date (-3)) ;;
         if Date.ltb soon today then
           ret (snap "Due Soon" "bg-orange-100 text-orange-700")
         else
           ret (snap "OK" "bg-green-100 text-green-700")
     | None =>
       (* No invoices yet, but has active lease *)
       ret (snap None None None None None "OK" "bg-green-100 text-green-700")
     end
   end)%db.

Inductive Body : Type :=
| MessageInvoiceId (message : string) (invoice : Z)
| MessageInvoice (message : string) (invoice : Invoice)
| Error (error : string).

Record Response : Type := mkResponse { status_code : Z; body : Body }.

(** [float(x) if x else None] *)
Definition float_or_None (d : option Decimal) : option Decimal :=
  if opt_truthy d then d else None.

(** [x or 'N/A'] inside the item label *)
Definition or_NA (d : option Decimal) : option Decimal :=
  if opt_truthy d then d else None.

Definition electricity_meta (b : BillResult) : Meta :=
  [("previous_reading", float_or_None (br_previous_reading b));
   ("current_reading", float_or_None (br_current_reading b));
   ("units", Some (br_units b));
   ("rate", Some (br_rate b))].

Definition electricity_label (year month : Z) (b : BillResult) : Label :=
  ElectricityReadings year month (or_NA (br_previous_reading b))
    (or_NA (br_current_reading b)) (br_units b) (br_rate b).

(** [Invoice.objects.filter(room=r, month=m, type='electricity').first()] *)
Definition existing_electricity_invoice (r : Z) (m : date) (db : DB) : option Invoice :=
  first (filter (same_invoice_key r m electricity) (invoices db)).

(** [generate_electricity_invoice(request, room_id)] with
    [?month=<year>-<month>]. *)
Definition generate_electricity_invoice (room year month : Z) : M Response :=
  (db <- get ;;
   match find_room room db with
   | None => raise Http404
   | Some _ =>
     catch_ValueError
       (first_of_month <- lift (Date.make year month 1) ;;
        db <- get ;;
        match existing_electricity_invoice room first_of_month db with
        | Some existing_invoice =>
          ret (mkResponse 200
                 (MessageInvoiceId "Invoice already exists"
                    (invoice_id existing_invoice)))
        | None =>
          bill_data <- calc_month_bill room year month ;;
          match br_error bill_data with
          | Some e => ret (mkResponse 400 (Error e))
          | None =>
            invoice <- Invoice_create room first_of_month electricity
                         (br_total bill_data) (Dec.of_Z 0) (br_total bill_data)
                         (electricity_meta bill_data) ;;
            InvoiceItem_create invoice (electricity_label year month bill_data)
              (br_units bill_data) (br_rate bill_data) (br_total bill_data) ;;;
            ret (mkResponse 200
                   (MessageInvoiceId "Invoice created successfully"
                      (invoice_id invoice)))
          end
        end)
       (fun msg => ret (mkResponse 400 (Error msg)))
   end)%db.

(** [update_lease_tenant(request, lease_id)] with POST field [tenant_id]
    ([None] when the field is empty). *)
Definition update_lease_tenant (lease_id : Z) (tenant : option Z) : M unit :=
  (db <- get ;;
   match find_lease lease_id db with
   | None => raise Http404
   | Some lease =>
     match tenant with
     | None => ret tt
     | Some t =>
       match find_tenant t db with
       | None => ret tt   (* except Tenant.DoesNotExist *)
       | Some tn =>
         Lease_save (mkLease (lease_pk lease) (tenant_id tn) (lease_room lease)
                       (start_date lease) (end_date lease) (monthly_rent lease)
                       (deposit lease) (billing_day lease) (lease_status lease)) ;;;
         ret tt
       end
     end
   end)%db.

(** [update_room_status(request, room_id, new_status)] *)
Definition update_room_status (room : Z) (new_status : RoomStatus) : M unit :=
  (db <- get ;;
   match find_room room db with
   | None => raise Http404
   | Some _ => room_update_status room new_status
   end)%db.

(** ** core/api/api.py *)

(** [electricity_invoice_create(request)] with [room_id] and
    [month = <year>-<month>] in the request data. *)
Definition electricity_invoice_create (room year month : Z) : M Response :=
  (if room =? 0 then
    ret (mkResponse 400 (Error "room_id and month are required"))
  else
    catch_ValueError
      (first_of_month <- lift (Date.make year month 1) ;;
       db <- get ;;
       match existing_electricity_invoice room first_of_month db with
       | Some existing_invoice =>
         ret (mkResponse 200 (MessageInvoice "Invoice already exists" existing_invoice))
       | None =>
         bill_data <- calc_month_bill room year month ;;
         match br_error bill_data with
         | Some e => ret (mkResponse 400 (Error e))
         | None =>
           invoice <- atomic
             (invoice <- Invoice_create room first_of_month electricity
                           (br_total bill_data) (Dec.of_Z 0) (br_total bill_data)
                           (electricity_meta bill_data) ;;
              InvoiceItem_create invoice (electricity_label year month bill_data)
                (br_units bill_data) (br_rate bill_data) (br_total bill_data) ;;;
              ret invoice) ;;
           ret (mkResponse 201 (MessageInvoice "Invoice created successfully" invoice))
         end
       end)
      (fun msg => ret (mkResponse 400 (Error msg))))%db.

(** ** The system as a transition system *)

Inductive Op : Type :=
| OpCreateLease (tenant : Tenant) (room : Room) (start : date)
    (rent_amount dep : Decimal) (bday : Z)
| OpEndLease (lease : Lease) (e : date)
| OpLeaseSave (lease : Lease)
| OpLeaseDelete (k : Z)
| OpUpdateLeaseTenant (lease_id : Z) (tenant : option Z)
| OpUpdateRoomStatus (room : Z) (new_status : RoomStatus)
| OpRecordPayment (lease : Lease) (amount : Decimal) (on : date)
    (method notes : string)
| OpCreateMonthlyInvoice (room : Room) (month : date) (rent_amount : Decimal)
    (electricity_units electricity_rate : option Decimal)
| OpGenerateElectricityInvoice (room year month : Z)
| OpElectricityInvoiceCreate (room year month : Z).

(** The database an operation leaves behind, whether it returns or raises. *)
Definition run (o : Op) (db : DB) : DB :=
  match o with
  | OpCreateLease t r s m d b => snd (create_lease t r s m d b db)
  | OpEndLease l e => snd (end_lease l e db)
  | OpLeaseSave l => snd (Lease_save l db)
  | OpLeaseDelete k => snd (Lease_delete k db)
  | OpUpdateLeaseTenant k t => snd (update_lease_tenant k t db)
  | OpUpdateRoomStatus r s => snd (update_room_status r s db)
  | OpRecordPayment l a d m n => snd (record_payment l a d m n db)
  | OpCreateMonthlyInvoice r m a u e => snd (create_monthly_invoice r m a u e db)
  | OpGenerateElectricityInvoice r y m => snd (generate_electricity_invoice r y m db)
  | OpElectricityInvoiceCreate r y m => snd (electricity_invoice_create r y m db)
  end.

(** A database before any lease was entered. *)
Definition initial (db : DB) : Prop :=
  leases db = [] /\ 1 <= next_lease_id db.

Inductive reachable : DB -> Prop :=
| reach_initial : forall db, initial db -> reachable db
| reach_step : forall db o, reachable db -> reachable (run o db).

(** The leases of room [r] whose status is active. *)
Definition active_on (r : Z) (l : Lease) : bool :=
  (lease_room l =? r) && is_active l.

Definition active_count (r : Z) (db : DB) : nat :=
  List.length (filter (active_on r) (leases db)).

(** The invariant carried along every run: rows have distinct primary
    keys below the next identifier, and a room has at most one active
    lease. *)
Definition keys_below_next (db : DB) : Prop :=
  forall l, In l (leases db) ->
    exists k, lease_pk l = Some k /\ k < next_lease_id db.

Definition keys_distinct (db : DB) : Prop :=
  forall k, (List.length (filter (pk_is k) (leases db)) <= 1)%nat.

Definition one_active_per_room (db : DB) : Prop :=
  forall r, (active_count r db <= 1)%nat.

Definition Inv (db : DB) : Prop :=
  keys_below_next db /\ keys_distinct db /\ one_active_per_room db.

Definition preserves {A} (m : M A) : Prop :=
  forall db, Inv db -> Inv (snd (m db)).

(** ** The rounding rule in the specification's words *)


(** ** Sample data *)

Definition jan (d : Z) : date := Date.mk 2024 1 d.
Definition feb (d : Z) : date := Date.mk 2024 2 d.

Definition room101 : Room := mkRoom 1 "101" vacant.
Definition alice : Tenant := mkTenant 1 "Alice".
Definition bob : Tenant := mkTenant 2 "Bob".

Definition empty_db : DB :=
  mkDB [room101] [alice; bob] [] [] [] [] []
    [("electricity_rate_per_unit", "10.50")] 1 1 1 1.

Definition with_readings (rs : list MeterReading) (db : DB) : DB :=
  mkDB (rooms db) (tenants db) (leases db) (payments db) rs (invoices db)
    (items db) (settings db) (next_lease_id db) (next_payment_id db)
    (next_invoice_id db) (next_item_id db).

(** Scenario A: readings 100 and 150, stored with two decimals. *)
Definition db_scenario_A : DB :=
  with_readings
    [mkMeterReading 1 1 (jan 15) (Dec.mk 10000 (-2));
     mkMeterReading 2 1 (feb 15) (Dec.mk 15000 (-2))] empty_db.

(** A meter that went backwards in February. *)
Definition db_backwards : DB :=
  with_readings
    [mkMeterReading 1 1 (jan 15) (Dec.mk 15000 (-2));
     mkMeterReading 2 1 (feb 15) (Dec.mk 10000 (-2))] empty_db.

(** Scenario B: a single reading of 80. *)
Definition db_scenario_B : DB :=
  with_readings [mkMeterReading 1 1 (feb 15) (Dec.mk 8000 (-2))] empty_db.

(** Alice holds room 101 from 1 January 2024. *)
Definition db_alice : DB :=
  run (OpCreateLease alice room101 (jan 1) (Dec.mk 500000 (-2)) (Dec.of_Z 0) 1)
    empty_db.

Definition alice_lease : Lease :=
  mkLease (Some 1) 1 1 (jan 1) None (Dec.mk 500000 (-2)) (Dec.of_Z 0) 1 active.


(** Alice left on 31 January; Bob holds the room from 1 February. *)
Definition db_bob : DB :=
  run (OpCreateLease bob room101 (feb 1) (Dec.mk 500000 (-2)) (Dec.of_Z 0) 1)
    (run (OpEndLease alice_lease (jan 31)) db_alice).

Definition alice_ended : Lease := lease_ended_on alice_lease (jan 31).

Definition bob_lease : Lease :=
  mkLease (Some 2) 2 1 (feb 1) None (Dec.mk 500000 (-2)) (Dec.of_Z 0) 1 active.

(** ** Further code of the billing module, the models and the services *)

(** [validate_monotonic_readings(room_id, reading_date, reading_value)] *)
Definition validate_monotonic_readings (room : Z) (on : date) (value : Decimal)
    (db : DB) : bool :=
  match first (order_by_desc reading_date
                 (filter (fun r => (reading_room r =? room)
                                   && Date.ltb (reading_date r) on)
                    (readings db))) with
  | Some previous_reading =>
    if Dec.ltb value (reading_value previous_reading) then false else true
  | None => true
  end.



Definition set_settings (v : list (string * string)) (db : DB) : DB :=
  mkDB (rooms db) (tenants db) (leases db) (payments db) (readings db)
    (invoices db) (items db) v (next_lease_id db) (next_payment_id db)
    (next_invoice_id db) (next_item_id db).

(** [Setting.set_value(key, value)], [value] being [str(value)]: the row
    of the key is fetched or created, then saved with the new value. *)
Definition Setting_set_value (key value : string) : M (string * string) :=
  fun db =>
    let present := existsb (fun kv => String.eqb (fst kv) key) (settings db) in
    let created := if present then settings db else (settings db ++ [(key, "")])%list in
    (Ok (key, value),
     set_settings
       (map (fun kv => if String.eqb (fst kv) key then (key, value) else kv) created)
       db).



(** [existing.save()] for a payment row. *)
Definition RentPayment_save (p : RentPayment) : M unit :=
  modify (fun db =>
    set_payments
      (map (fun x => if payment_id x =? payment_id p then p else x) (payments db))
      (next_payment_id db) db).

(** [PaymentService.mark_invoice_paid(invoice, amount, paid_on, method)];
    payments are ordered by [-paid_on]. *)
Definition mark_invoice_paid (invoice : Invoice) (amount : Decimal) (on : date)
    (method : string) : M RentPayment :=
  atomic
    (room <- related_room (invoice_room invoice) ;;
     db <- get ;;
     match first (active_leases (room_id room) db) with
     | None => raise (ValidationError "No active lease for this room")
     | Some lease =>
       match first (order_by_desc paid_on
                      (payments_in_month lease (Date.year on) (Date.month on) db)) with
       | Some existing =>
         let updated := mkRentPayment (payment_id existing) (payment_lease existing)
                          on amount method (payment_notes existing) in
         RentPayment_save updated ;;;
         ret updated
       | None => record_payment lease amount on method ""
       end
     end)%db.

(** ** Further code of the views and the API *)

(** [Invoice.objects.filter(room=r, month=m, type='rent').first()] *)
Definition existing_rent_invoice (r : Z) (m : date) (db : DB) : option Invoice :=
  first (filter (same_invoice_key r m rent) (invoices db)).

(** [rent_invoice_create(request)] with [lease_id] and
    [month = <year>-<month>] in the request data.  The item label
    interpolates the month string; it is kept as the date the string
    denotes. *)
Definition rent_invoice_create (lease_id year month : Z) : M Response :=
  (if lease_id =? 0 then
     ret (mkResponse 400 (Error "lease_id and month are required"))
   else
     catch_ValueError
       (db <- get ;;
        match find_lease lease_id db with
        | None => raise Http404
        | Some lease =>
          first_of_month <- lift (Date.make year month 1) ;;
          room <- related_room (lease_room lease) ;;
          db <- get ;;
          match existing_rent_invoice (room_id room) first_of_month db with
          | Some existing_invoice =>
            ret (mkResponse 200 (MessageInvoice "Invoice already exists" existing_invoice))
          | None =>
            invoice <- atomic
              (tenant <- related_tenant (lease_tenant lease) ;;
               invoice <- Invoice_create (room_id room) first_of_month rent
                            (monthly_rent lease) (Dec.of_Z 0) (monthly_rent lease)
                            [("lease_id", Some (Dec.of_Z lease_id));
                             ("tenant_id", Some (Dec.of_Z (tenant_id tenant)))] ;;
               InvoiceItem_create invoice (RentFor first_of_month) (Dec.of_Z 1)
                 (monthly_rent lease) (monthly_rent lease) ;;;
               ret invoice) ;;
            ret (mkResponse 201 (MessageInvoice "Invoice created successfully" invoice))
          end
        end)
       (fun msg => ret (mkResponse 400 (Error msg))))%db.

(** The flash message of a view: its text, or the prefix put before the
    text of a caught exception. *)
Inductive Flash : Type :=
| Success (text : string)
| Failure (text : string)
| FailureOf (prefix : string) (e : exn).

(** [create_lease_for_room(request, room_id)], the POST fields given as
    the values they parse to. *)
Definition create_lease_for_room (room tenant : Z) (start : date)
    (rent_amount dep : Decimal) (bday : Z) : M Flash :=
  (db <- get ;;
   match find_room room db with
   | None => raise Http404
   | Some r =>
     if exists_ (active_leases room db) then
       ret (Failure "This room already has an active lease.")
     else
       fun db =>
         match
           (match find_tenant tenant db with
            | None => raise Http404
            | Some t =>
              let billing_day_int :=
                if (bday <? 1) || (28 <? bday) then 1 else bday in
              Lease_save (mkLease None (tenant_id t) room start None rent_amount
                            dep billing_day_int active) ;;;
              ret (Success ("Successfully assigned " ++ full_name t ++ " to Room "
                            ++ room_number r
                            ++ ". Room status updated to occupied.")%string)
            end) db
         with
         | (Raise (DoesNotExist model), db') =>
           if String.eqb model "Tenant" then (Ok (Failure "Tenant not found."), db')
           else (Ok (FailureOf "Error creating lease: " (DoesNotExist model)), db')
         | (Raise (ValueError msg), db') =>
           (Ok (FailureOf "Invalid input: " (ValueError msg)), db')
         | (Raise e, db') => (Ok (FailureOf "Error creating lease: " e), db')
         | r => r
         end
   end)%db.

(** The queryset of [reports_rent_collection]: payments from the first
    of the month up to, not including, 32 days later. *)
Definition rent_collection_payments (year month : Z) : M (list RentPayment) :=
  (first_of_month <- lift (Date.make year month 1) ;;
   window_end <- lift (Date.add_days first_of_month 32) ;;
   db <- get ;;
   ret (filter (fun p => Date.leb first_of_month (paid_on p)
                         && Date.ltb (paid_on p) window_end) (payments db)))%db.

(** ** Auxiliary notions used by the statements *)

(** The head of a list is not earlier than any of its elements. *)
Definition head_latest {A} (key : A -> date) (l : list A) : Prop :=
  match l with
  | [] => True
  | h :: _ => forall y, In y l -> Date.ltb (key h) (key y) = false
  end.



Definition invoice_message (r : result Response) : Prop :=
  match r with
  | Ok (mkResponse _ (MessageInvoiceId _ _)) => True
  | Ok (mkResponse _ (MessageInvoice _ _)) => True
  | _ => False
  end.

(** ** Notions used by the further properties *)

(** [r] is a reading selected by [P] and no reading selected by [P] has a
    later date. *)
Definition latest_reading (P : MeterReading -> bool) (db : DB) (r : MeterReading)
    : Prop :=
  In r (readings db) /\ P r = true
  /\ forall r', In r' (readings db) -> P r' = true ->
       Date.ltb (reading_date r) (reading_date r') = false.

(** The readings of a room before a date, and within a month. *)
Definition reading_before (room : Z) (d : date) (r : MeterReading) : bool :=
  (reading_room r =? room) && Date.ltb (reading_date r) d.

Definition reading_within (room : Z) (a b : date) (r : MeterReading) : bool :=
  (reading_room r =? room) && Date.leb a (reading_date r)
  && Date.ltb (reading_date r) b.

(** The months [get_month_readings] accepts. *)
Definition month_in_range (y m : Z) : Prop :=
  1 <= y <= 9999 /\ 1 <= m <= 12 /\ ~ (y = 9999 /\ m = 12).

(** The first day of the month after [y]-[m]. *)
Definition next_month_start (y m : Z) : date :=
  if m =? 12 then Date.mk (y + 1) 1 1 else Date.mk y (m + 1) 1.

(** (room, reading_date) is unique among the readings. *)
Definition reading_dates_unique (db : DB) : Prop :=
  forall r1 r2, In r1 (readings db) -> In r2 (readings db) ->
    reading_room r1 = reading_room r2 ->
    Date.eqb (reading_date r1) (reading_date r2) = true -> r1 = r2.

(** Alice's January rent invoice, and the database once she paid it. *)
Definition alice_invoice : Invoice :=
  mkInvoice 1 1 (jan 1) rent (Dec.mk 500000 (-2)) (Dec.of_Z 0) (Dec.mk 500000 (-2))
    [("rent", Some (Dec.mk 500000 (-2)))].

Definition db_alice_paid : DB :=
  snd (record_payment alice_lease (Dec.mk 500000 (-2)) (jan 5) "Cash" "" db_alice).

(** The invoice and the database a rent invoice creation produces. *)
Definition rent_invoice_of (lease : Lease) (lease_id : Z) (room : Room) (fm : date)
    (tenant : Tenant) (db : DB) : Invoice :=
  mkInvoice (next_invoice_id db) (room_id room) fm rent (monthly_rent lease)
    (Dec.of_Z 0) (monthly_rent lease)
    [("lease_id", Some (Dec.of_Z lease_id));
     ("tenant_id", Some (Dec.of_Z (tenant_id tenant)))].

Definition after_rent_invoice (lease : Lease) (lease_id : Z) (room : Room) (fm : date)
    (tenant : Tenant) (db : DB) : DB :=
  let db1 := set_invoices
               (invoices db ++ [rent_invoice_of lease lease_id room fm tenant db])
               (next_invoice_id db + 1) db in
  set_items
    (items db1 ++ [mkInvoiceItem (next_item_id db1) (next_invoice_id db) (RentFor fm)
                     (Dec.of_Z 1) (monthly_rent lease) (monthly_rent lease)])
    (next_item_id db1 + 1) db1.

(** The 32-day window opened on the first of [y]-[m] ends after the first
    day of the following month. *)
Definition window_reaches_next (y m : Z) : bool :=
  match Date.add_days (Date.mk y m 1) 32 with
  | Ok e => Date.ltb (next_month_start y m) e
  | Raise _ => false
  end.

(** The [n] integers from [z] on. *)
Fixpoint Z_range (n : nat) (z : Z) : list Z :=
  match n with
  | O => []
  | S k => z :: Z_range k (z + 1)
  end.


(** * Properties *)

(** ** Tactics *)


Ltac step_with H := rewrite H; cbv beta iota.

(** ** Running database code *)

Lemma bind_Ok {A B} (m : M A) (k : A -> M B) db a db' :
  m db = (Ok a, db') -> bind m k db = k a db'.
Proof. intros H; unfold bind; rewrite H; reflexivity. Qed.

Lemma bind_Raise {A B} (m : M A) (k : A -> M B) db e db' :
  m db = (Raise e, db') -> bind m k db = (Raise e, db').
Proof. intros H; unfold bind; rewrite H; reflexivity. Qed.

Lemma atomic_Ok {A} (m : M A) db a db' :
  m db = (Ok a, db') -> atomic m db = (Ok a, db').
Proof. intros H; unfold atomic; rewrite H; reflexivity. Qed.

Lemma atomic_Raise {A} (m : M A) db e db' :
  m db = (Raise e, db') -> atomic m db = (Raise e, db).
Proof. intros H; unfold atomic; rewrite H; reflexivity. Qed.

(** ** Metering calculator *)

Lemma get_month_readings_db room year month db :
  snd (get_month_readings room year month db) = db.
Proof.
  unfold get_month_readings, bind, lift, get, ret.
  destruct (Date.make year month 1); simpl; [|reflexivity].
  destruct (if month =? 12 then _ else _); reflexivity.
Qed.

Lemma get_month_readings_run room year month db r :
  fst (get_month_readings room year month db) = r ->
  get_month_readings room year month db = (r, db).
Proof.
  intros H. pose proof (get_month_readings_db room year month db) as Hdb.
  destruct (get_month_readings room year month db); simpl in *; subst; reflexivity.
Qed.

Lemma compute_units_absent (x : option Decimal) :
  compute_units None x = Ok (Dec.of_Z 0) /\ compute_units x None = Ok (Dec.of_Z 0).
Proof. split; [reflexivity | destruct x; reflexivity]. Qed.

Lemma quantize_zero e rate :
  Dec.quantize_half_up e (Dec.mul (Dec.of_Z 0) rate) = Dec.mk 0 e.
Proof.
  unfold Dec.quantize_half_up, Dec.mul, Dec.of_Z; simpl.
  destruct (e <=? Dec.exp rate); reflexivity.
Qed.

Lemma calc_month_bill_run room year month db r prev cur rate :
  find_room room db = Some r ->
  fst (get_month_readings room year month db) = Ok (prev, cur) ->
  get_rate db = (Ok rate, db) ->
  calc_month_bill room year month db =
    match compute_bill prev cur rate with
    | Raise (ValueError e) =>
      (Ok (mkBillResult room year month prev cur (Dec.of_Z 0) rate (Dec.of_Z 0)
             (Some e)), db)
    | Raise e => (Raise e, db)
    | Ok b =>
      (Ok (mkBillResult room year month prev cur (bill_units b) (bill_rate b)
             (bill_total b) None), db)
    end.
Proof.
  intros Hroom Hread Hrate. apply get_month_readings_run in Hread.
  unfold calc_month_bill.
  unfold bind at 1. unfold get at 1. rewrite Hroom.
  rewrite (bind_Ok _ _ _ _ _ Hread). rewrite (bind_Ok _ _ _ _ _ Hrate). simpl.
  destruct (compute_bill prev cur rate) as [b|[]]; reflexivity.
Qed.

(** C8 : [compute_units] is 0 as soon as one of the two readings is
    absent, whatever the other one; so a room without a reading before
    the month is billed 0 units and a total of 0.00, with no error. *)
Theorem absent_reading_bills_zero :
  forall (x : option Decimal) db room r year month cur rate,
    find_room room db = Some r ->
    fst (get_month_readings room year month db) = Ok (None, cur) ->
    get_rate db = (Ok rate, db) ->
    compute_units None x = Ok (Dec.of_Z 0)
    /\ compute_units x None = Ok (Dec.of_Z 0)
    /\ calc_month_bill room year month db =
         (Ok (mkBillResult room year month None cur (Dec.of_Z 0) rate
                (Dec.mk 0 (-2)) None), db).
Proof.
  intros x db room r year month cur rate Hroom Hread Hrate.
  destruct (compute_units_absent x) as [H1 H2].
  repeat split; try assumption.
  rewrite (calc_month_bill_run _ _ _ _ _ _ _ _ Hroom Hread Hrate).
  unfold compute_bill; simpl. rewrite quantize_zero. reflexivity.
Qed.

Lemma absent_reading_bills_zero_witness :
  compute_units None (Some (Dec.mk 8000 (-2))) = Ok (Dec.of_Z 0)
  /\ compute_units (Some (Dec.mk 8000 (-2))) None = Ok (Dec.of_Z 0)
  /\ calc_month_bill 1 2024 2 db_scenario_B =
       (Ok (mkBillResult 1 2024 2 None (Some (Dec.mk 8000 (-2))) (Dec.of_Z 0)
              (Dec.mk 1050 (-2)) (Dec.mk 0 (-2)) None), db_scenario_B).
Proof.
  apply (absent_reading_bills_zero (Some (Dec.mk 8000 (-2))) db_scenario_B 1
           room101 2024 2 (Some (Dec.mk 8000 (-2))) (Dec.mk 1050 (-2)));
    reflexivity.
Defined.

Lemma sub_negative_ltb c p :
  (Dec.coef (Dec.sub c p) <? 0) = Dec.ltb c p.
Proof.
  unfold Dec.sub, Dec.ltb, Dec.compare; simpl.
  set (a := Dec.scaled c _). set (b := Dec.scaled p _).
  destruct (Z.compare_spec a b); destruct (Z.ltb_spec (a - b) 0); auto; lia.
Qed.

Lemma get_month_readings_first room year month db x :
  fst (get_month_readings room year month db) = Ok x ->
  exists fm, Date.make year month 1 = Ok fm.
Proof.
  unfold get_month_readings, bind, lift.
  destruct (Date.make year month 1) as [fm|e]; simpl; [eauto | discriminate].
Qed.

(** C2 : when the current reading is below the previous one,
    [calc_month_bill] returns (it does not raise) the two readings, 0
    units, a total of 0 and the error text; the invoice endpoints then
    answer 400 with that text, and write nothing. *)
Theorem negative_delta_soft_failure :
  forall db room r year month p c rate,
    find_room room db = Some r ->
    fst (get_month_readings room year month db) = Ok (Some p, Some c) ->
    get_rate db = (Ok rate, db) ->
    Dec.ltb c p = true ->
    exists fm,
      Date.make year month 1 = Ok fm
      /\ calc_month_bill room year month db =
           (Ok (mkBillResult room year month (Some p) (Some c) (Dec.of_Z 0) rate
                  (Dec.of_Z 0) (Some negative_delta_msg)), db)
      /\ (existing_electricity_invoice room fm db = None ->
          generate_electricity_invoice room year month db =
            (Ok (mkResponse 400 (Error negative_delta_msg)), db)
          /\ (room <> 0 ->
              electricity_invoice_create room year month db =
                (Ok (mkResponse 400 (Error negative_delta_msg)), db))).
Proof.
  intros db room r year month p c rate Hroom Hread Hrate Hlt.
  destruct (get_month_readings_first _ _ _ _ _ Hread) as [fm Hfm].
  assert (Hbill : calc_month_bill room year month db =
           (Ok (mkBillResult room year month (Some p) (Some c) (Dec.of_Z 0) rate
                  (Dec.of_Z 0) (Some negative_delta_msg)), db)).
  { rewrite (calc_month_bill_run _ _ _ _ _ _ _ _ Hroom Hread Hrate).
    unfold compute_bill, compute_units, rbind.
    rewrite sub_negative_ltb, Hlt. reflexivity. }
  exists fm. split; [assumption|]. split; [assumption|].
  intros Hnone. split.
  - unfold generate_electricity_invoice.
    unfold bind at 1. unfold get at 1. rewrite Hroom.
    unfold catch_ValueError, bind, lift, get. rewrite Hfm, Hnone, Hbill.
    reflexivity.
  - intros Hnz. unfold electricity_invoice_create.
    destruct (Z.eqb_spec room 0) as [|_]; [contradiction|].
    unfold catch_ValueError, bind, lift, get. rewrite Hfm, Hnone, Hbill.
    reflexivity.
Qed.

Lemma negative_delta_soft_failure_witness :
  exists fm,
    Date.make 2024 2 1 = Ok fm
    /\ calc_month_bill 1 2024 2 db_backwards =
         (Ok (mkBillResult 1 2024 2 (Some (Dec.mk 15000 (-2)))
                (Some (Dec.mk 10000 (-2))) (Dec.of_Z 0) (Dec.mk 1050 (-2))
                (Dec.of_Z 0) (Some negative_delta_msg)), db_backwards)
    /\ (existing_electricity_invoice 1 fm db_backwards = None ->
        generate_electricity_invoice 1 2024 2 db_backwards =
          (Ok (mkResponse 400 (Error negative_delta_msg)), db_backwards)
        /\ (1 <> 0 ->
            electricity_invoice_create 1 2024 2 db_backwards =
              (Ok (mkResponse 400 (Error negative_delta_msg)), db_backwards))).
Proof.
  apply (negative_delta_soft_failure db_backwards 1 room101 2024 2
           (Dec.mk 15000 (-2)) (Dec.mk 10000 (-2)) (Dec.mk 1050 (-2)));
    reflexivity.
Defined.

(** ** Rounding *)

Lemma pow10_pos k : 0 < 10 ^ k \/ k < 0.
Proof. destruct (Z.le_gt_cases 0 k); [left; apply Z.pow_pos_nonneg; lia | right; lia]. Qed.













(** ** Queries *)

Lemma insert_desc_In {A} (key : A -> date) x y l :
  In y (insert_desc key x l) <-> y = x \/ In y l.
Proof.
  induction l as [|z t IH]; simpl.
  - intuition.
  - destruct (Date.ltb (key x) (key z)); simpl; rewrite ?IH; intuition.
Qed.

Lemma order_by_desc_In {A} (key : A -> date) y l :
  In y (order_by_desc key l) <-> In y l.
Proof.
  unfold order_by_desc. induction l as [|x t IH]; simpl; [tauto|].
  split.
  - intros H. apply insert_desc_In in H. destruct H as [->|H]; [auto|right; apply IH, H].
  - intros [->|H]; apply insert_desc_In; [auto|right; apply IH, H].
Qed.

Lemma first_In {A} (l : list A) x : first l = Some x -> In x l.
Proof. destruct l; simpl; [discriminate | intros [= ->]; auto]. Qed.

Lemma first_None {A} (l : list A) : first l = None -> l = [].
Proof. destruct l; simpl; [reflexivity | discriminate]. Qed.

Lemma first_order_by_desc_None {A} (key : A -> date) l :
  first (order_by_desc key l) = None -> l = [].
Proof.
  intros H. apply first_None in H. destruct l as [|x t]; [reflexivity|].
  assert (Hin : In x (order_by_desc key (x :: t))) by (apply order_by_desc_In; left; reflexivity).
  rewrite H in Hin. destruct Hin.
Qed.

Lemma active_leases_In r db l :
  In l (active_leases r db) <-> In l (leases db) /\ active_on r l = true.
Proof.
  unfold active_leases. rewrite order_by_desc_In, filter_In. reflexivity.
Qed.

Lemma first_active_leases_None r db :
  first (active_leases r db) = None ->
  forall l, In l (leases db) -> active_on r l = false.
Proof.
  intros H l Hin. apply first_order_by_desc_None in H.
  destruct (active_on r l) eqn:E; [|reflexivity].
  assert (Hf : In l (filter (fun l => (lease_room l =? r)
                                      && LeaseStatus_eqb (lease_status l) active)
                       (leases db))) by (apply filter_In; auto).
  rewrite H in Hf. destruct Hf.
Qed.

(** ** Creating a lease on an occupied room *)

(** C6 : on a room that has an active lease, [create_lease] raises the
    validation error whose text names the room and the tenant of an
    active lease of that room, and the database is left as it was: no
    lease is added and the room keeps its status. *)
Theorem create_lease_conflict :
  forall db tenant room start rent_amount dep bday l,
    In l (leases db) ->
    active_on (room_id room) l = true ->
    (forall l', In l' (leases db) -> find_tenant (lease_tenant l') db <> None) ->
    exists existing holder,
      In existing (leases db)
      /\ active_on (room_id room) existing = true
      /\ find_tenant (lease_tenant existing) db = Some holder
      /\ create_lease tenant room start rent_amount dep bday db =
           (Raise (ValidationError
                     ("Room " ++ room_number room
                      ++ " already has an active lease with "
                      ++ full_name holder)%string), db).
Proof.
  intros db tenant room start rent_amount dep bday l Hin Hact Hfk.
  destruct (first (active_leases (room_id room) db)) as [existing|] eqn:Hfirst.
  - pose proof (first_In _ _ Hfirst) as Hex.
    apply active_leases_In in Hex. destruct Hex as [Hex1 Hex2].
    destruct (find_tenant (lease_tenant existing) db) as [holder|] eqn:Hholder;
      [|exfalso; exact (Hfk _ Hex1 Hholder)].
    exists existing, holder. repeat split; try assumption.
    unfold create_lease. apply atomic_Raise with (db' := db).
    unfold bind at 1. unfold get at 1. rewrite Hfirst.
    unfold bind, related_tenant, raise. rewrite Hholder. reflexivity.
  - pose proof (first_active_leases_None _ _ Hfirst l Hin). congruence.
Qed.

Lemma create_lease_conflict_witness :
  exists existing holder,
    In existing (leases db_alice)
    /\ active_on (room_id room101) existing = true
    /\ find_tenant (lease_tenant existing) db_alice = Some holder
    /\ create_lease bob room101 (feb 1) (Dec.mk 500000 (-2)) (Dec.of_Z 0) 1 db_alice =
         (Raise (ValidationError
                   ("Room " ++ room_number room101
                    ++ " already has an active lease with "
                    ++ full_name holder)%string), db_alice).
Proof.
  apply (create_lease_conflict db_alice bob room101 (feb 1) (Dec.mk 500000 (-2))
           (Dec.of_Z 0) 1 alice_lease).
  - left; reflexivity.
  - reflexivity.
  - intros l' [<-|[]]. discriminate.
Defined.

(** ** Saving and ending leases *)

Lemma Date_compare_antisym a b :
  Date.compare b a = CompOpp (Date.compare a b).
Proof.
  unfold Date.compare.
  rewrite (Z.compare_antisym (Date.year a)), (Z.compare_antisym (Date.month a)),
    (Z.compare_antisym (Date.day a)).
  destruct (Date.year a ?= Date.year b), (Date.month a ?= Date.month b),
    (Date.day a ?= Date.day b); reflexivity.
Qed.

Lemma Date_leb_ltb a b : Date.leb a b = negb (Date.ltb b a).
Proof.
  unfold Date.leb, Date.ltb. rewrite (Date_compare_antisym a b).
  destruct (Date.compare a b); reflexivity.
Qed.

Lemma Date_eqb_leb a b : Date.eqb a b = true -> Date.leb a b = true /\ Date.ltb a b = false.
Proof.
  unfold Date.eqb, Date.leb, Date.ltb. destruct (Date.compare a b); auto; discriminate.
Qed.

Lemma find_with_status rs r st room :
  find (fun x => room_id x =? r) rs = Some room ->
  find (fun x => room_id x =? r) (map (with_status r st) rs)
  = Some (mkRoom (room_id room) (room_number room) st).
Proof.
  induction rs as [|x t IH]; simpl; [discriminate|].
  destruct (room_id x =? r) eqn:E.
  - intros [= ->]. unfold with_status. rewrite E. simpl. rewrite E. reflexivity.
  - replace (with_status r st x) with x by (unfold with_status; rewrite E; reflexivity).
    rewrite E. exact IH.
Qed.

Lemma room_set_status_run r st room db :
  find_room r db = Some room ->
  room_set_status r st db = (Ok tt, set_rooms (map (with_status r st) (rooms db)) db).
Proof.
  intros H. unfold room_set_status, bind, related_room. rewrite H. reflexivity.
Qed.

Lemma room_update_status_run r st room db :
  find_room r db = Some room ->
  room_update_status r st db = (Ok tt, set_rooms (map (with_status r st) (rooms db)) db).
Proof.
  intros H. unfold room_update_status. rewrite H. reflexivity.
Qed.

Lemma ended_not_active l : is_ended l = true -> is_active l = false.
Proof. unfold is_ended, is_active. destruct (lease_status l); simpl; congruence. Qed.

Lemma pk_truthy_Some l k : lease_pk l = Some k -> k <> 0 -> pk_truthy l = true.
Proof.
  intros H Hk. unfold pk_truthy. rewrite H.
  destruct (Z.eqb_spec k 0); [contradiction | reflexivity].
Qed.

Lemma lease_with_own_pk l k : lease_pk l = Some k -> lease_with_pk k l = l.
Proof. destruct l; simpl; intros ->; reflexivity. Qed.

(** Saving a persisted ended lease whose dates pass validation: the room
    is written first, then the lease row. *)
Lemma Lease_save_ended db l k room :
  lease_pk l = Some k -> k <> 0 -> is_ended l = true ->
  end_not_after_start l = false ->
  find_room (lease_room l) db = Some room ->
  Lease_save l db
  = Model_save_lease l
      (set_rooms (map (with_status (lease_room l) vacant) (rooms db)) db).
Proof.
  intros Hpk Hk Hend Hdates Hroom.
  unfold Lease_save, Lease_clean.
  rewrite Hdates, (ended_not_active _ Hend), Hend, (pk_truthy_Some _ _ Hpk Hk). simpl.
  unfold bind at 1. unfold bind at 1. unfold ret at 1.
  rewrite (room_set_status_run _ _ _ _ Hroom). reflexivity.
Qed.

(** A lease whose end date is not after its start date is refused by
    validation before anything is written. *)
Lemma Lease_save_invalid_dates db l :
  end_not_after_start l = true ->
  Lease_save l db
  = (Raise (ValidationError "End date must be after start date."), db).
Proof.
  intros H. unfold Lease_save. apply bind_Raise.
  unfold Lease_clean. rewrite H. reflexivity.
Qed.

Lemma Model_save_lease_rooms l db :
  rooms (snd (Model_save_lease l db)) = rooms db.
Proof.
  unfold Model_save_lease.
  destruct (negb _); [reflexivity|].
  destruct (lease_pk l), (existsb _ _); reflexivity.
Qed.

Lemma Model_save_lease_keeps l db k l' :
  lease_pk l = Some k ->
  In l' (leases db) -> pk_is k l' = false ->
  In l' (leases (snd (Model_save_lease l db))).
Proof.
  intros Hpk Hin Hne. unfold Model_save_lease. rewrite Hpk.
  destruct (negb _); [exact Hin|].
  destruct (existsb _ _); simpl.
  - apply in_map_iff. exists l'. rewrite Hne. auto.
  - apply in_or_app. auto.
Qed.

Lemma find_existsb {A} (f : A -> bool) l x : find f l = Some x -> existsb f l = true.
Proof.
  intros H. apply existsb_exists. exists x. apply find_some in H. exact H.
Qed.

Lemma find_lease_pk k db l : find_lease k db = Some l -> lease_pk l = Some k.
Proof.
  intros H. apply find_some in H. destruct H as [_ H]. unfold pk_is in H.
  destruct (lease_pk l); [|discriminate]. apply Z.eqb_eq in H. congruence.
Qed.

Lemma find_replaced k row ls :
  pk_is k row = true -> existsb (pk_is k) ls = true ->
  find (pk_is k) (map (fun l => if pk_is k l then row else l) ls) = Some row.
Proof.
  intros Hrow. induction ls as [|x t IH]; simpl; [discriminate|].
  destruct (pk_is k x) eqn:E; simpl.
  - rewrite Hrow. reflexivity.
  - rewrite E. exact IH.
Qed.

Lemma Model_save_lease_update l k db :
  lease_pk l = Some k ->
  existsb (pk_is k) (leases db) = true ->
  end_date_after_start_date l = true ->
  monthly_rent_positive l = true ->
  is_active l = false ->
  Model_save_lease l db
  = (Ok l, set_leases (map (fun x => if pk_is k x then l else x) (leases db))
             (next_lease_id db) db).
Proof.
  intros Hpk Hex Hd Hr Ha. unfold Model_save_lease.
  rewrite Hpk, (lease_with_own_pk _ _ Hpk), Hex, Hd, Hr.
  unfold unique_active_lease_per_room. rewrite Ha. reflexivity.
Qed.

(** C3 (amended) : for a persisted lease, [end_lease] raises "Lease is
    not active" when the lease is not active and "End date cannot be
    before start date" when the end date precedes the start date; an end
    date equal to the start date is refused by the lease's own validation
    ("End date must be after start date.").  In the three cases the
    database is unchanged.  With an end date after the start date it
    returns the lease with status ended and that end date, stores it, and
    the room is vacant. *)
Theorem end_lease_outcomes :
  forall db lease e k room,
    k <> 0 ->
    find_lease k db = Some lease ->
    find_room (lease_room lease) db = Some room ->
    monthly_rent_positive lease = true ->
    (is_active lease = false ->
     end_lease lease e db = (Raise (ValidationError "Lease is not active"), db))
    /\ (is_active lease = true -> Date.ltb e (start_date lease) = true ->
        end_lease lease e db =
          (Raise (ValidationError "End date cannot be before start date"), db))
    /\ (is_active lease = true -> Date.eqb e (start_date lease) = true ->
        end_lease lease e db =
          (Raise (ValidationError "End date must be after start date."), db))
    /\ (is_active lease = true -> Date.ltb (start_date lease) e = true ->
        exists db',
          end_lease lease e db = (Ok (lease_ended_on lease e), db')
          /\ find_lease k db' = Some (lease_ended_on lease e)
          /\ find_room (lease_room lease) db'
             = Some (mkRoom (room_id room) (room_number room) vacant)).
Proof.
  intros db lease e k room Hk Hfind Hroom Hrent.
  pose proof (find_lease_pk _ _ _ Hfind) as Hpk.
  repeat split.
  - intros Ha. unfold end_lease. rewrite Ha. reflexivity.
  - intros Ha Hlt. unfold end_lease. rewrite Ha, Hlt. reflexivity.
  - intros Ha Heq. destruct (Date_eqb_leb _ _ Heq) as [Hle Hnlt].
    unfold end_lease. rewrite Ha, Hnlt. simpl.
    apply atomic_Raise with (db' := db). apply bind_Raise.
    unfold Lease_save. apply bind_Raise.
    unfold Lease_clean, end_not_after_start. simpl. rewrite Hle. reflexivity.
  - intros Ha Hlt.
    assert (Hnlt : Date.ltb e (start_date lease) = false).
    { unfold Date.ltb in *. rewrite (Date_compare_antisym (start_date lease) e).
      destruct (Date.compare (start_date lease) e); simpl; congruence. }
    set (l' := lease_ended_on lease e).
    set (db1 := set_rooms (map (with_status (lease_room lease) vacant) (rooms db)) db).
    set (db2 := set_leases (map (fun x => if pk_is k x then l' else x) (leases db1))
                  (next_lease_id db1) db1).
    assert (Hsave : Lease_save l' db = (Ok l', db2)).
    { rewrite (Lease_save_ended db l' k room); try assumption; try reflexivity.
      - apply Model_save_lease_update; try assumption; try reflexivity.
        apply (find_existsb _ _ _ Hfind).
      - unfold end_not_after_start; simpl. rewrite Date_leb_ltb, Hlt. reflexivity. }
    assert (Hroom2 : find_room (lease_room lease) db2
                     = Some (mkRoom (room_id room) (room_number room) vacant))
      by (apply find_with_status, Hroom).
    exists (set_rooms (map (with_status (lease_room lease) vacant) (rooms db2)) db2).
    split; [|split].
    + unfold end_lease. rewrite Ha, Hnlt. simpl. apply atomic_Ok.
      rewrite (bind_Ok _ _ _ _ _ Hsave).
      unfold bind at 1. unfold related_room. rewrite Hroom2.
      unfold bind. rewrite (room_update_status_run _ _ _ _ Hroom2). reflexivity.
    + unfold find_lease; simpl. apply find_replaced.
      * unfold pk_is; simpl. rewrite Hpk. apply Z.eqb_refl.
      * apply (find_existsb _ _ _ Hfind).
    + apply (find_with_status _ _ _ _ Hroom2).
Qed.

Lemma end_lease_outcomes_witness :
  (is_active alice_lease = false ->
   end_lease alice_lease (jan 31) db_alice
   = (Raise (ValidationError "Lease is not active"), db_alice))
  /\ (is_active alice_lease = true -> Date.ltb (jan 31) (start_date alice_lease) = true ->
      end_lease alice_lease (jan 31) db_alice =
        (Raise (ValidationError "End date cannot be before start date"), db_alice))
  /\ (is_active alice_lease = true -> Date.eqb (jan 31) (start_date alice_lease) = true ->
      end_lease alice_lease (jan 31) db_alice =
        (Raise (ValidationError "End date must be after start date."), db_alice))
  /\ (is_active alice_lease = true -> Date.ltb (start_date alice_lease) (jan 31) = true ->
      exists db',
        end_lease alice_lease (jan 31) db_alice
        = (Ok (lease_ended_on alice_lease (jan 31)), db')
        /\ find_lease 1 db' = Some (lease_ended_on alice_lease (jan 31))
        /\ find_room (lease_room alice_lease) db'
           = Some (mkRoom (room_id (mkRoom 1 "101" occupied))
                     (room_number (mkRoom 1 "101" occupied)) vacant)).
Proof.
  apply (end_lease_outcomes db_alice alice_lease (jan 31) 1 (mkRoom 1 "101" occupied)).
  - lia.
  - reflexivity.
  - reflexivity.
  - reflexivity.
Defined.

(** C3, as stated, fails when the end date equals the start date: the
    lease is active and the end date is not before the start date, yet
    the call raises and changes nothing. *)
Lemma end_lease_same_day_rejected :
  is_active alice_lease = true
  /\ find_lease 1 db_alice = Some alice_lease
  /\ Date.leb (start_date alice_lease) (jan 1) = true
  /\ end_lease alice_lease (jan 1) db_alice
     = (Raise (ValidationError "End date must be after start date."), db_alice).
Proof. repeat split. Qed.

Lemma Model_save_lease_Ok l k db :
  lease_pk l = Some k ->
  end_date_after_start_date l = true ->
  monthly_rent_positive l = true ->
  is_active l = false ->
  fst (Model_save_lease l db) = Ok l.
Proof.
  intros Hpk Hd Hr Ha. unfold Model_save_lease.
  rewrite Hpk, (lease_with_own_pk _ _ Hpk), Hd, Hr.
  unfold unique_active_lease_per_room. rewrite Ha. simpl.
  destruct (existsb _ _); reflexivity.
Qed.

Lemma dates_pass_both l :
  end_not_after_start l = false -> end_date_after_start_date l = true.
Proof.
  unfold end_not_after_start, end_date_after_start_date.
  destruct (end_date l); [|reflexivity].
  rewrite Date_leb_ltb. destruct (Date.ltb _ _); simpl; congruence.
Qed.

(** C10 : saving a lease that has a primary key and status ended (its
    dates passing validation) leaves the lease's room vacant, whatever the
    other fields of the lease and whatever other leases the room has:
    every other lease row, an active one on that room included, is still
    there afterwards.  The save returns the lease when its rent is
    positive. *)
Theorem save_ended_lease_vacates_room :
  forall db l k room,
    lease_pk l = Some k -> k <> 0 ->
    is_ended l = true ->
    end_not_after_start l = false ->
    find_room (lease_room l) db = Some room ->
    find_room (lease_room l) (snd (Lease_save l db))
    = Some (mkRoom (room_id room) (room_number room) vacant)
    /\ (forall l', In l' (leases db) -> pk_is k l' = false ->
        In l' (leases (snd (Lease_save l db))))
    /\ (monthly_rent_positive l = true -> fst (Lease_save l db) = Ok l).
Proof.
  intros db l k room Hpk Hk Hend Hdates Hroom.
  rewrite (Lease_save_ended db l k room Hpk Hk Hend Hdates Hroom).
  set (db1 := set_rooms _ db).
  split; [|split].
  - unfold find_room. rewrite Model_save_lease_rooms. simpl.
    apply find_with_status, Hroom.
  - intros l' Hin Hne. apply (Model_save_lease_keeps l db1 k l' Hpk); assumption.
  - intros Hrent. apply (Model_save_lease_Ok l k db1 Hpk); auto using dates_pass_both, ended_not_active.
Qed.

Lemma save_ended_lease_vacates_room_witness :
  find_room (lease_room alice_ended) (snd (Lease_save alice_ended db_bob))
  = Some (mkRoom (room_id (mkRoom 1 "101" occupied))
            (room_number (mkRoom 1 "101" occupied)) vacant)
  /\ (forall l', In l' (leases db_bob) -> pk_is 1 l' = false ->
      In l' (leases (snd (Lease_save alice_ended db_bob))))
  /\ (monthly_rent_positive alice_ended = true ->
      fst (Lease_save alice_ended db_bob) = Ok alice_ended).
Proof.
  apply (save_ended_lease_vacates_room db_bob alice_ended 1 (mkRoom 1 "101" occupied)).
  - reflexivity.
  - lia.
  - reflexivity.
  - reflexivity.
  - reflexivity.
Defined.

(** Reassigning the tenant of Alice's ended lease while Bob holds the
    room: the room was occupied, Bob's lease stays active, and the room is
    vacant afterwards. *)
Lemma reassigning_tenant_vacates_occupied_room :
  find_room 1 db_bob = Some (mkRoom 1 "101" occupied)
  /\ find_lease 2 db_bob = Some bob_lease
  /\ find_lease 2 (snd (update_lease_tenant 1 (Some 2) db_bob)) = Some bob_lease
  /\ find_room 1 (snd (update_lease_tenant 1 (Some 2) db_bob))
     = Some (mkRoom 1 "101" vacant).
Proof. repeat split. Qed.

(** ** Monthly invoices *)



(** ** Room badge *)

Lemma Date_ltb_iff a b :
  Date.ltb a b = true <->
  (Date.year a < Date.year b
   \/ (Date.year a = Date.year b
       /\ (Date.month a < Date.month b
           \/ (Date.month a = Date.month b /\ Date.day a < Date.day b)))).
Proof.
  unfold Date.ltb, Date.compare.
  destruct (Z.compare_spec (Date.year a) (Date.year b));
    destruct (Z.compare_spec (Date.month a) (Date.month b));
    destruct (Z.compare_spec (Date.day a) (Date.day b));
    split; intros; try discriminate; try reflexivity; lia.
Qed.

Lemma Date_not_ltb_trans x z y :
  Date.ltb x z = false -> Date.ltb z y = false -> Date.ltb x y = false.
Proof.
  rewrite <- !Bool.not_true_iff_false, !Date_ltb_iff. lia.
Qed.

Lemma Date_ltb_irrefl x : Date.ltb x x = false.
Proof. rewrite <- Bool.not_true_iff_false, Date_ltb_iff. lia. Qed.

Lemma Date_ltb_asym x y : Date.ltb x y = true -> Date.ltb y x = false.
Proof. rewrite <- Bool.not_true_iff_false, !Date_ltb_iff. lia. Qed.

Lemma insert_desc_head_latest {A} (key : A -> date) x l :
  head_latest key l -> head_latest key (insert_desc key x l).
Proof.
  destruct l as [|z t]; simpl.
  - intros _ y [<-|[]]. apply Date_ltb_irrefl.
  - intros H. destruct (Date.ltb (key x) (key z)) eqn:E; simpl.
    + intros y [<-|Hy]; [apply Date_ltb_irrefl|].
      apply insert_desc_In in Hy. destruct Hy as [->|Hy].
      * apply Date_ltb_asym, E.
      * apply H. right. exact Hy.
    + intros y [<-|Hy]; [apply Date_ltb_irrefl|].
      apply (Date_not_ltb_trans _ (key z)); [exact E | apply H, Hy].
Qed.

Lemma order_by_desc_head_latest {A} (key : A -> date) l :
  head_latest key (order_by_desc key l).
Proof.
  unfold order_by_desc. induction l as [|x t IH]; simpl; [exact I|].
  apply insert_desc_head_latest, IH.
Qed.

Lemma first_order_by_desc_latest {A} (key : A -> date) l x :
  first (order_by_desc key l) = Some x ->
  forall y, In y l -> Date.ltb (key x) (key y) = false.
Proof.
  intros H y Hy. pose proof (order_by_desc_head_latest key l) as Hh.
  destruct (order_by_desc key l) as [|h t] eqn:E; [discriminate|].
  simpl in H. injection H as ->. apply Hh. rewrite <- E.
  apply order_by_desc_In, Hy.
Qed.





(** Scenario D: the only invoice is for January, nothing was paid;
    ten days after the due date, and forty days after the invoice month,
    the badge is Overdue; on the due date it is Due Soon, three days
    before it is OK. *)
Lemma overdue_badge_scenario :
  option_map snap_badge
    (match fst (get_room_finance_snapshot room101 None None (jan 16) db_alice)
     with Ok s => Some s | Raise _ => None end) = Some "Overdue"
  /\ option_map snap_badge
       (match fst (get_room_finance_snapshot room101 None None (feb 10) db_alice)
        with Ok s => Some s | Raise _ => None end) = Some "Overdue"
  /\ option_map snap_badge
       (match fst (get_room_finance_snapshot room101 None None (jan 6) db_alice)
        with Ok s => Some s | Raise _ => None end) = Some "Due Soon"
  /\ option_map snap_badge
       (match fst (get_room_finance_snapshot room101 None None (jan 3) db_alice)
        with Ok s => Some s | Raise _ => None end) = Some "OK".
Proof. repeat split. Qed.

(** ** Electricity invoices *)

Lemma get_rate_db db : snd (get_rate db) = db.
Proof. unfold get_rate. destruct (Decimal_of_string _); reflexivity. Qed.

Lemma calc_month_bill_db room year month db :
  snd (calc_month_bill room year month db) = db.
Proof.
  unfold calc_month_bill. unfold bind at 1. unfold get at 1.
  destruct (find_room room db); [|reflexivity].
  unfold bind at 1.
  pose proof (get_month_readings_db room year month db) as H1.
  destruct (get_month_readings room year month db) as [[pc|e] d]; simpl in H1; subst d;
    [|reflexivity].
  unfold bind at 1. pose proof (get_rate_db db) as H2.
  destruct (get_rate db) as [[rate|e] d]; simpl in H2; subst d; [|reflexivity].
  destruct (compute_bill (fst pc) (snd pc) rate) as [b|[]]; reflexivity.
Qed.

Lemma first_filter_None {A} (f : A -> bool) l :
  first (filter f l) = None -> existsb f l = false.
Proof.
  induction l as [|x t IH]; simpl; [reflexivity|].
  destruct (f x); simpl; [discriminate | exact IH].
Qed.

Lemma Date_eqb_refl d : Date.eqb d d = true.
Proof. unfold Date.eqb, Date.compare. rewrite !Z.compare_refl. reflexivity. Qed.

Lemma first_filter_app_new {A} (f : A -> bool) l x :
  first (filter f l) = None -> f x = true ->
  filter f (l ++ [x]) = [x].
Proof.
  intros Hn Hx. apply first_None in Hn.
  rewrite filter_app, Hn. simpl. rewrite Hx. reflexivity.
Qed.











(** The two calls on the sample readings: the first creates invoice 1 for
    525.00, the second finds it and leaves the tables as they were. *)
Lemma electricity_invoice_twice_example :
  let v1 := generate_electricity_invoice 1 2024 2 db_scenario_A in
  let v2 := generate_electricity_invoice 1 2024 2 (snd v1) in
  fst v1 = Ok (mkResponse 200 (MessageInvoiceId "Invoice created successfully" 1))
  /\ fst v2 = Ok (mkResponse 200 (MessageInvoiceId "Invoice already exists" 1))
  /\ snd v2 = snd v1
  /\ map invoice_total (invoices (snd v2)) = [Dec.mk 52500 (-2)]
  /\ List.length (items (snd v2)) = 1%nat.
Proof. repeat split. Qed.

(** ** One active lease per room *)

Lemma filter_length_map {A B} (P : B -> bool) (f : A -> B) l :
  List.length (filter P (map f l)) = List.length (filter (fun x => P (f x)) l).
Proof.
  induction l as [|x t IH]; simpl; [reflexivity|].
  destruct (P (f x)); simpl; rewrite IH; reflexivity.
Qed.

Lemma filter_length_le {A} (P Q : A -> bool) l :
  (forall x, In x l -> P x = true -> Q x = true) ->
  (List.length (filter P l) <= List.length (filter Q l))%nat.
Proof.
  induction l as [|x t IH]; simpl; intros H; [lia|].
  assert (IH' := IH (fun y Hy => H y (or_intror Hy))).
  destruct (P x) eqn:EP.
  - rewrite (H x (or_introl eq_refl) EP). simpl. lia.
  - destruct (Q x); simpl; lia.
Qed.

Lemma existsb_false_filter {A} (P : A -> bool) l :
  existsb P l = false -> filter P l = [].
Proof.
  induction l as [|x t IH]; simpl; [reflexivity|].
  destruct (P x); simpl; [discriminate | exact IH].
Qed.

Lemma filter_length_app1 {A} (P : A -> bool) l x :
  List.length (filter P (l ++ [x]))
  = (List.length (filter P l) + (if P x then 1 else 0))%nat.
Proof.
  rewrite filter_app, length_app. simpl. destruct (P x); reflexivity.
Qed.

Lemma pk_is_with_pk j k l : pk_is j (lease_with_pk k l) = (k =? j).
Proof. reflexivity. Qed.

Lemma pk_is_same j k l : pk_is k l = true -> pk_is j l = (k =? j).
Proof.
  unfold pk_is. destruct (lease_pk l) as [k'|]; [|discriminate].
  intros H. apply Z.eqb_eq in H. subst. reflexivity.
Qed.

Lemma active_on_with_pk r k l : active_on r (lease_with_pk k l) = active_on r l.
Proof. reflexivity. Qed.

Lemma Inv_same_leases db db' :
  leases db' = leases db -> next_lease_id db' = next_lease_id db ->
  Inv db -> Inv db'.
Proof.
  intros Hl Hn (H1 & H2 & H3).
  unfold Inv, keys_below_next, keys_distinct, one_active_per_room, active_count.
  rewrite Hl, Hn. auto.
Qed.

Lemma Model_save_lease_Inv self db :
  Inv db -> Inv (snd (Model_save_lease self db)).
Proof.
  intros (Hbelow & Hdist & Hone). unfold Model_save_lease.
  set (k := match lease_pk self with Some k => k | None => next_lease_id db end).
  set (row := lease_with_pk k self).
  set (others := filter (fun l => negb (pk_is k l)) (leases db)).
  destruct (end_date_after_start_date row && monthly_rent_positive row
            && unique_active_lease_per_room row others) eqn:Hcons; simpl;
    [|repeat split; assumption].
  apply andb_prop in Hcons. destruct Hcons as [_ Huniq].
  assert (Hothers : forall x, In x (leases db) -> pk_is k x = false ->
                      active_on (lease_room row) row = true ->
                      active_on (lease_room row) x = false).
  { intros x Hx Hk Hact. unfold unique_active_lease_per_room in Huniq.
    unfold active_on in Hact. rewrite Z.eqb_refl in Hact. simpl in Hact.
    rewrite Hact in Huniq. simpl in Huniq. apply negb_true_iff in Huniq.
    destruct (active_on (lease_room row) x) eqn:E; [|reflexivity].
    assert (Hex : existsb (fun l => (lease_room l =? lease_room row) && is_active l)
                    others = true).
    { apply existsb_exists. exists x. split; [|exact E].
      apply filter_In. rewrite Hk. auto. }
    change (lease_room row) with (lease_room self) in Hex. congruence. }
  assert (Hroom : forall r, active_on r row = true -> r = lease_room row).
  { intros r H. unfold active_on in H. apply andb_prop in H.
    destruct H as [H _]. apply Z.eqb_eq in H. congruence. }
  destruct (existsb (pk_is k) (leases db)) eqn:Hpresent.
  - destruct (lease_pk self) as [k0|] eqn:Hpk; simpl; [|repeat split; assumption].
    repeat split.
    + intros l Hl. simpl in Hl. apply in_map_iff in Hl.
      destruct Hl as (x & Hx & Hin). destruct (pk_is k x) eqn:E.
      * subst l. exists k. split; [reflexivity|].
        destruct (Hbelow x Hin) as (kx & Hkx & Hlt). unfold pk_is in E.
        rewrite Hkx in E. apply Z.eqb_eq in E. subst. exact Hlt.
      * subst l. exact (Hbelow x Hin).
    + intros j. simpl. rewrite filter_length_map.
      etransitivity; [|apply (Hdist j)].
      apply filter_length_le. intros x Hx. destruct (pk_is k x) eqn:E; [|auto].
      rewrite (pk_is_same j k x E). auto.
    + intros r. unfold active_count. simpl. rewrite filter_length_map.
      destruct (active_on r row) eqn:Hrow.
      * pose proof (Hroom r Hrow); subst r.
        etransitivity; [|apply (Hdist k)].
        apply filter_length_le. intros x Hx. destruct (pk_is k x) eqn:E; [auto|].
        rewrite (Hothers x Hx E Hrow). discriminate.
      * etransitivity; [|apply (Hone r)].
        apply filter_length_le. intros x Hx. destruct (pk_is k x); [|auto].
        rewrite Hrow. discriminate.
  - assert (Hnone : forall x, In x (leases db) -> pk_is k x = false).
    { intros x Hx. destruct (pk_is k x) eqn:E; [|reflexivity].
      assert (existsb (pk_is k) (leases db) = true)
        by (apply existsb_exists; eauto).
      congruence. }
    assert (Hsnd : snd (match lease_pk self with
                        | Some _ | None =>
                          (Ok row, set_leases (leases db ++ [row])
                                     (Z.max (next_lease_id db) (k + 1)) db)
                        end) = set_leases (leases db ++ [row])
                                 (Z.max (next_lease_id db) (k + 1)) db)
      by (destruct (lease_pk self); reflexivity).
    rewrite Hsnd. repeat split.
    + intros l Hl. simpl in Hl. apply in_app_or in Hl. destruct Hl as [Hl|[<-|[]]].
      * destruct (Hbelow l Hl) as (kx & Hkx & Hlt). exists kx. simpl. split; [assumption|lia].
      * exists k. simpl. split; [reflexivity|lia].
    + intros j. simpl. rewrite filter_length_app1.
      change (pk_is j row) with (k =? j).
      destruct (Z.eqb_spec k j) as [<-|Hne].
      * rewrite (existsb_false_filter _ _ Hpresent). simpl. lia.
      * pose proof (Hdist j). lia.
    + intros r. unfold active_count. simpl. rewrite filter_length_app1.
      destruct (active_on r row) eqn:Hrow.
      * pose proof (Hroom r Hrow); subst r.
        assert (Hnil : filter (active_on (lease_room row)) (leases db) = []).
        { apply existsb_false_filter.
          destruct (existsb (active_on (lease_room row)) (leases db)) eqn:E; [|reflexivity].
          apply existsb_exists in E. destruct E as (x & Hx & Hax).
          rewrite (Hothers x Hx (Hnone x Hx) Hrow) in Hax. discriminate. }
        rewrite Hnil. simpl. lia.
      * pose proof (Hone r). unfold active_count in *. lia.
Qed.

Lemma preserves_pure {A} (m : M A) :
  (forall db, snd (m db) = db) -> preserves m.
Proof. intros H db Hinv. rewrite H. exact Hinv. Qed.

Lemma preserves_ret {A} (a : A) : preserves (ret a).
Proof. apply preserves_pure. reflexivity. Qed.

Lemma preserves_raise {A} e : preserves (@raise A e).
Proof. apply preserves_pure. reflexivity. Qed.

Lemma preserves_lift {A} (r : result A) : preserves (lift r).
Proof. apply preserves_pure. reflexivity. Qed.

Lemma preserves_get : preserves get.
Proof. apply preserves_pure. reflexivity. Qed.

Lemma preserves_bind {A B} (m : M A) (k : A -> M B) :
  preserves m -> (forall a, preserves (k a)) -> preserves (bind m k).
Proof.
  intros Hm Hk db Hinv. unfold bind. specialize (Hm db Hinv).
  destruct (m db) as [[a|e] db']; simpl in *; [apply Hk, Hm | exact Hm].
Qed.

Lemma preserves_atomic {A} (m : M A) : preserves m -> preserves (atomic m).
Proof.
  intros Hm db Hinv. unfold atomic. specialize (Hm db Hinv).
  destruct (m db) as [[a|e] db']; simpl in *; assumption.
Qed.

Lemma preserves_catch {A} (m : M A) h :
  preserves m -> (forall msg, preserves (h msg)) -> preserves (catch_ValueError m h).
Proof.
  intros Hm Hh db Hinv. unfold catch_ValueError. specialize (Hm db Hinv).
  destruct (m db) as [[a|[]] db']; simpl in *; try assumption. apply Hh, Hm.
Qed.

Lemma preserves_related_room r : preserves (related_room r).
Proof.
  apply preserves_pure. intros db. unfold related_room.
  destruct (find_room r db); reflexivity.
Qed.

Lemma preserves_related_tenant t : preserves (related_tenant t).
Proof.
  apply preserves_pure. intros db. unfold related_tenant.
  destruct (find_tenant t db); reflexivity.
Qed.

Lemma preserves_room_set_status r st : preserves (room_set_status r st).
Proof.
  unfold room_set_status. apply preserves_bind; [apply preserves_related_room|].
  intros _ db Hinv. simpl. apply (Inv_same_leases db); auto.
Qed.

Lemma preserves_room_update_status r st : preserves (room_update_status r st).
Proof.
  intros db Hinv. unfold room_update_status.
  destruct (find_room r db); simpl; [|assumption].
  apply (Inv_same_leases db); auto.
Qed.

Lemma preserves_Invoice_create r m t s x tt' meta :
  preserves (Invoice_create r m t s x tt' meta).
Proof.
  intros db Hinv. unfold Invoice_create.
  destruct (existsb _ _); simpl; [assumption|].
  apply (Inv_same_leases db); auto.
Qed.

Lemma preserves_InvoiceItem_create i l q r a :
  preserves (InvoiceItem_create i l q r a).
Proof. intros db Hinv. apply (Inv_same_leases db); auto. Qed.

Lemma preserves_RentPayment_create l d a m n :
  preserves (RentPayment_create l d a m n).
Proof. intros db Hinv. apply (Inv_same_leases db); auto. Qed.

Lemma preserves_calc_month_bill r y m : preserves (calc_month_bill r y m).
Proof. apply preserves_pure, calc_month_bill_db. Qed.

Lemma preserves_Model_save_lease l : preserves (Model_save_lease l).
Proof. intros db. apply Model_save_lease_Inv. Qed.

Lemma filter_filter_length_le {A} (P Q : A -> bool) l :
  (List.length (filter P (filter Q l)) <= List.length (filter P l))%nat.
Proof.
  induction l as [|x t IH]; simpl; [lia|].
  destruct (Q x); simpl; destruct (P x); simpl; lia.
Qed.

Lemma preserves_Lease_delete k : preserves (Lease_delete k).
Proof.
  intros db (Hbelow & Hdist & Hone). unfold Lease_delete, modify; simpl.
  repeat split.
  - intros l Hl. simpl in Hl. apply filter_In in Hl. apply Hbelow, Hl.
  - intros j. simpl. etransitivity; [apply filter_filter_length_le | apply (Hdist j)].
  - intros r. unfold active_count. simpl.
    etransitivity; [apply filter_filter_length_le | apply (Hone r)].
Qed.

Create HintDb preserves.

#[local] Hint Resolve preserves_ret preserves_raise preserves_lift preserves_get
  preserves_related_room preserves_related_tenant preserves_room_set_status
  preserves_room_update_status preserves_Invoice_create
  preserves_InvoiceItem_create preserves_RentPayment_create
  preserves_calc_month_bill preserves_Model_save_lease preserves_Lease_delete
  : preserves.

Ltac preserves_step :=
  first
    [ solve [auto with preserves]
    | apply preserves_bind; [|intro]
    | apply preserves_atomic
    | apply preserves_catch; [|intro]
    | match goal with
      | |- preserves (if ?c then _ else _) => destruct c
      | |- preserves (match ?x with _ => _ end) => destruct x
      end ].

Ltac preserves_all := repeat (cbv beta; preserves_step).


Lemma preserves_Lease_clean l : preserves (Lease_clean l).
Proof. unfold Lease_clean. preserves_all. Qed.

#[local] Hint Resolve preserves_Lease_clean : preserves.

Lemma preserves_Lease_save l : preserves (Lease_save l).
Proof. unfold Lease_save. preserves_all. Qed.

#[local] Hint Resolve preserves_Lease_save : preserves.

Lemma preserves_create_lease t r s m d b : preserves (create_lease t r s m d b).
Proof.
  unfold create_lease. preserves_all.
Qed.

Lemma preserves_end_lease l e : preserves (end_lease l e).
Proof.
  unfold end_lease. preserves_all.
Qed.

Lemma preserves_update_lease_tenant k t : preserves (update_lease_tenant k t).
Proof.
  unfold update_lease_tenant. preserves_all.
Qed.

Lemma preserves_update_room_status r s : preserves (update_room_status r s).
Proof. unfold update_room_status. preserves_all. Qed.

Lemma preserves_record_payment l a d m n : preserves (record_payment l a d m n).
Proof. unfold record_payment. preserves_all. Qed.

Lemma preserves_create_monthly_invoice r m a u e :
  preserves (create_monthly_invoice r m a u e).
Proof. unfold create_monthly_invoice. preserves_all. Qed.

Lemma preserves_generate_electricity_invoice r y m :
  preserves (generate_electricity_invoice r y m).
Proof. unfold generate_electricity_invoice. preserves_all. Qed.

Lemma preserves_electricity_invoice_create r y m :
  preserves (electricity_invoice_create r y m).
Proof. unfold electricity_invoice_create. preserves_all. Qed.

Lemma run_Inv o db : Inv db -> Inv (run o db).
Proof.
  destruct o; simpl.
  - apply preserves_create_lease.
  - apply preserves_end_lease.
  - apply preserves_Lease_save.
  - apply preserves_Lease_delete.
  - apply preserves_update_lease_tenant.
  - apply preserves_update_room_status.
  - apply preserves_record_payment.
  - apply preserves_create_monthly_invoice.
  - apply preserves_generate_electricity_invoice.
  - apply preserves_electricity_invoice_create.
Qed.

Lemma reachable_Inv db : reachable db -> Inv db.
Proof.
  induction 1 as [db [Hl Hn]|db o _ IH]; [|apply run_Inv, IH].
  unfold Inv, keys_below_next, keys_distinct, one_active_per_room, active_count.
  rewrite Hl. simpl. repeat split; intros; try lia; contradiction.
Qed.

Lemma exists_false {A} (l : list A) : exists_ l = false -> l = [].
Proof. destruct l; [reflexivity | discriminate]. Qed.

Lemma active_leases_nil r db :
  active_leases r db = [] -> forall l, In l (leases db) -> active_on r l = false.
Proof.
  intros H. apply first_active_leases_None. rewrite H. reflexivity.
Qed.

(** Validation alone already enforces the uniqueness constraint: when
    [Lease.clean] accepts a lease, the constraint check of the write that
    follows cannot fail. *)
Lemma validation_implies_constraint self db :
  fst (Lease_clean self db) = Ok tt ->
  let k := match lease_pk self with Some k => k | None => next_lease_id db end in
  unique_active_lease_per_room (lease_with_pk k self)
    (filter (fun l => negb (pk_is k l)) (leases db)) = true.
Proof.
  intros Hclean k. unfold unique_active_lease_per_room.
  change (is_active (lease_with_pk k self)) with (is_active self).
  change (lease_room (lease_with_pk k self)) with (lease_room self).
  destruct (is_active self) eqn:Ha; [|reflexivity]. simpl.
  apply negb_true_iff.
  destruct (existsb _ _) eqn:E; [|reflexivity]. exfalso.
  apply existsb_exists in E. destruct E as (x & Hx & Hax).
  apply filter_In in Hx. destruct Hx as [Hx Hnk]. apply negb_true_iff in Hnk.
  fold (active_on (lease_room self) x) in Hax.
  revert Hclean. unfold Lease_clean.
  destruct (end_not_after_start self); [discriminate|]. rewrite Ha. simpl.
  unfold bind, related_room, get.
  destruct (pk_truthy self) eqn:Ht; simpl;
    (destruct (find_room (lease_room self) db) as [room|] eqn:Hroom;
       [|simpl; discriminate]);
    (assert (Hid : room_id room = lease_room self)
       by (apply find_some in Hroom; destruct Hroom as [_ H]; apply Z.eqb_eq, H));
    rewrite Hid.
  - destruct (exists_ _) eqn:Hex; [discriminate|]. intros _.
    apply exists_false in Hex.
    assert (Hin : In x (filter (fun l => negb (same_pk self l))
                          (active_leases (lease_room self) db))).
    { apply filter_In. split; [apply active_leases_In; auto|].
      unfold same_pk. unfold pk_truthy in Ht.
      destruct (lease_pk self) as [k0|]; [|discriminate].
      subst k. rewrite Hnk. reflexivity. }
    rewrite Hex in Hin. destruct Hin.
  - destruct (exists_ _) eqn:Hex; [discriminate|]. intros _.
    apply exists_false in Hex.
    rewrite (active_leases_nil _ _ Hex x Hx) in Hax. discriminate.
Qed.

(** C1 : in every state reachable from a database without leases by
    the operations of the system (creating and ending leases, saving and
    deleting a lease, the tenant and room-status views, payments and
    invoices), each room has at most one active lease; and whatever
    operation runs next, this still holds afterwards. *)
Theorem one_active_lease_per_room :
  forall db o r,
    reachable db ->
    (active_count r db <= 1)%nat /\ (active_count r (run o db) <= 1)%nat.
Proof.
  intros db o r Hreach. split.
  - apply (reachable_Inv db Hreach).
  - apply (reachable_Inv (run o db)). apply reach_step, Hreach.
Qed.

Lemma one_active_lease_per_room_witness :
  (active_count 1 db_bob <= 1)%nat
  /\ (active_count 1
        (run (OpCreateLease alice room101 (feb 10) (Dec.mk 500000 (-2))
                (Dec.of_Z 0) 1) db_bob) <= 1)%nat.
Proof.
  apply (one_active_lease_per_room db_bob
           (OpCreateLease alice room101 (feb 10) (Dec.mk 500000 (-2)) (Dec.of_Z 0) 1) 1).
  unfold db_bob, db_alice.
  apply reach_step, reach_step, reach_step, reach_initial.
  split; [reflexivity | simpl; lia].
Defined.

(** * Further properties *)

(** ** The calculator *)





Lemma days_in_month_pos y m : 1 <= m <= 12 -> 1 <= Date.days_in_month y m.
Proof.
  intros H.
  assert (Hm : m = 1 \/ m = 2 \/ m = 3 \/ m = 4 \/ m = 5 \/ m = 6 \/ m = 7
               \/ m = 8 \/ m = 9 \/ m = 10 \/ m = 11 \/ m = 12) by lia.
  unfold Date.days_in_month.
  repeat (destruct Hm as [->|Hm]); try subst m;
    simpl; destruct (Date.is_leap y); simpl; lia.
Qed.

Lemma Date_make_first y m :
  (1 <= y <= 9999 /\ 1 <= m <= 12 -> Date.make y m 1 = Ok (Date.mk y m 1))
  /\ (~ (1 <= y <= 9999 /\ 1 <= m <= 12) ->
      exists msg, Date.make y m 1 = Raise (ValueError msg)).
Proof.
  unfold Date.make. split.
  - intros [Hy Hm]. pose proof (days_in_month_pos y m Hm).
    destruct (Z.leb_spec 1 y), (Z.leb_spec y 9999), (Z.leb_spec 1 m),
      (Z.leb_spec m 12), (Z.leb_spec 1 (Date.days_in_month y m)); simpl;
      try lia; reflexivity.
  - intros H.
    destruct (Z.leb_spec 1 y), (Z.leb_spec y 9999); simpl; eauto;
      destruct (Z.leb_spec 1 m), (Z.leb_spec m 12); simpl; eauto; lia.
Qed.

Lemma get_month_readings_Ok room y m db :
  month_in_range y m ->
  get_month_readings room y m db
  = (Ok (option_map reading_value
           (first (order_by_desc reading_date
                     (filter (reading_before room (Date.mk y m 1)) (readings db)))),
         option_map reading_value
           (first (order_by_desc reading_date
                     (filter (reading_within room (Date.mk y m 1)
                                (next_month_start y m)) (readings db))))), db).
Proof.
  intros (Hy & Hm & Hlast). unfold get_month_readings, bind, lift, get, ret.
  destruct (Date_make_first y m) as [H1 _]. rewrite (H1 (conj Hy Hm)).
  unfold next_month_start.
  destruct (Z.eqb_spec m 12) as [->|Hne].
  - destruct (Date_make_first (y + 1) 1) as [H2 _].
    rewrite H2 by lia. reflexivity.
  - destruct (Date_make_first y (m + 1)) as [H2 _].
    rewrite H2 by lia. reflexivity.
Qed.

(** ** Month lookups *)

(** X3 : [get_month_readings] returns exactly for the months from 0001-01 to
    9999-11; for any other year or month, December 9999 included, it
    raises [ValueError].  It never writes. *)
Theorem get_month_readings_domain :
  forall db room y m,
    match fst (get_month_readings room y m db) with
    | Ok _ => month_in_range y m
    | Raise e => (exists msg, e = ValueError msg) /\ ~ month_in_range y m
    end
    /\ snd (get_month_readings room y m db) = db.
Proof.
  intros db room y m. split; [|apply get_month_readings_db].
  destruct (Z.le_gt_cases 1 y), (Z.le_gt_cases y 9999), (Z.le_gt_cases 1 m),
    (Z.le_gt_cases m 12);
    try (destruct (Date_make_first y m) as [_ H3];
         destruct H3 as [msg Hmsg]; [lia|];
         unfold get_month_readings, bind, lift; rewrite Hmsg; simpl;
         split; [eauto | unfold month_in_range; lia]).
  destruct (Z.eq_dec y 9999) as [->|Hy]; [destruct (Z.eq_dec m 12) as [->|Hm]|].
  - simpl. split; [eauto | unfold month_in_range; lia].
  - rewrite get_month_readings_Ok by (unfold month_in_range; lia). simpl.
    unfold month_in_range; lia.
  - rewrite get_month_readings_Ok by (unfold month_in_range; lia). simpl.
    unfold month_in_range; lia.
Qed.

Lemma first_latest_reading P db r :
  first (order_by_desc reading_date (filter P (readings db))) = Some r ->
  latest_reading P db r.
Proof.
  intros H. pose proof (first_In _ _ H) as Hin.
  apply order_by_desc_In, filter_In in Hin. destruct Hin as [Hin HP].
  repeat split; try assumption.
  intros r' Hr' HP'. apply (first_order_by_desc_latest _ _ _ H).
  apply filter_In. auto.
Qed.

Lemma first_no_reading P db :
  first (order_by_desc reading_date (filter P (readings db))) = None ->
  forall r, In r (readings db) -> P r = false.
Proof.
  intros H r Hr. apply first_order_by_desc_None in H.
  destruct (P r) eqn:E; [|reflexivity].
  assert (Hin : In r (filter P (readings db))) by (apply filter_In; auto).
  rewrite H in Hin. destruct Hin.
Qed.

(** X4 : The previous reading [get_month_readings] returns is the value of a
    reading of the room dated before the first of the month such that no
    reading of the room before that day is later, however old it is; it is
    absent exactly when the room has no reading before the month.  The
    current reading is chosen the same way among the readings dated within
    the month. *)
Theorem get_month_readings_selects_latest :
  forall db room y m previous current,
    fst (get_month_readings room y m db) = Ok (previous, current) ->
    match previous with
    | Some v =>
      exists r, latest_reading (reading_before room (Date.mk y m 1)) db r
                /\ reading_value r = v
    | None =>
      forall r, In r (readings db) -> reading_before room (Date.mk y m 1) r = false
    end
    /\ match current with
       | Some v =>
         exists r, latest_reading
                     (reading_within room (Date.mk y m 1) (next_month_start y m)) db r
                   /\ reading_value r = v
       | None =>
         forall r, In r (readings db) ->
           reading_within room (Date.mk y m 1) (next_month_start y m) r = false
       end.
Proof.
  intros db room y m previous current H.
  assert (Hrange : month_in_range y m).
  { pose proof (get_month_readings_domain db room y m) as [Hd _].
    rewrite H in Hd. exact Hd. }
  rewrite (get_month_readings_Ok room y m db Hrange) in H. simpl in H.
  injection H as Hp Hc. split.
  - destruct (first (order_by_desc reading_date
                       (filter (reading_before room (Date.mk y m 1)) (readings db))))
      as [r|] eqn:E; simpl in Hp; subst previous.
    + exists r. split; [apply first_latest_reading, E | reflexivity].
    + apply first_no_reading, E.
  - destruct (first (order_by_desc reading_date
                       (filter (reading_within room (Date.mk y m 1)
                                  (next_month_start y m)) (readings db))))
      as [r|] eqn:E; simpl in Hc; subst current.
    + exists r. split; [apply first_latest_reading, E | reflexivity].
    + apply first_no_reading, E.
Qed.

Lemma get_month_readings_selects_latest_witness :
  (exists r, latest_reading (reading_before 1 (Date.mk 2024 2 1)) db_scenario_A r
             /\ reading_value r = Dec.mk 10000 (-2))
  /\ (exists r, latest_reading
                  (reading_within 1 (Date.mk 2024 2 1) (next_month_start 2024 2))
                  db_scenario_A r
                /\ reading_value r = Dec.mk 15000 (-2)).
Proof.
  apply (get_month_readings_selects_latest db_scenario_A 1 2024 2
           (Some (Dec.mk 10000 (-2))) (Some (Dec.mk 15000 (-2)))).
  reflexivity.
Defined.

(** ** Settings and the rate *)

Lemma find_key_absent key (l : list (string * string)) :
  (forall v, ~ In (key, v) l) ->
  find (fun kv => String.eqb (fst kv) key) l = None.
Proof.
  intros H. destruct (find _ l) as [[k v]|] eqn:E; [|reflexivity].
  apply find_some in E. destruct E as [Hin Hk]. simpl in Hk.
  apply String.eqb_eq in Hk. subst k. elim (H v Hin).
Qed.

Lemma quantize_zero_coef e d :
  Dec.coef d = 0 -> Dec.coef (Dec.quantize_half_up e d) = 0.
Proof.
  intros H. unfold Dec.quantize_half_up. rewrite H.
  destruct (e <=? Dec.exp d); simpl; reflexivity.
Qed.

(** X5 : Without an [electricity_rate_per_unit] setting the rate is 0, and
    every month bill that is returned has a total of zero, whatever the
    readings. *)
Theorem missing_rate_bills_nothing :
  forall db room y m b,
    (forall v, ~ In ("electricity_rate_per_unit", v) (settings db)) ->
    fst (calc_month_bill room y m db) = Ok b ->
    get_rate db = (Ok (Dec.of_Z 0), db)
    /\ br_rate b = Dec.of_Z 0
    /\ Dec.coef (br_total b) = 0.
Proof.
  intros db room y m b Habs Hb.
  assert (Hrate : get_rate db = (Ok (Dec.of_Z 0), db)).
  { unfold get_rate, Setting_get_value. rewrite (find_key_absent _ _ Habs).
    reflexivity. }
  split; [assumption|].
  revert Hb. unfold calc_month_bill. unfold bind at 1. unfold get at 1.
  destruct (find_room room db) as [r|]; [|discriminate].
  unfold bind at 1.
  pose proof (get_month_readings_db room y m db) as Hdb.
  destruct (get_month_readings room y m db) as [[pc|e] d]; simpl in Hdb; subst d;
    [|discriminate].
  rewrite (bind_Ok _ _ _ _ _ Hrate).
  unfold compute_bill, rbind.
  destruct (compute_units (fst pc) (snd pc)) as [u|[]]; simpl;
    try discriminate; intros [= <-]; simpl; split; try reflexivity.
  apply quantize_zero_coef. simpl. lia.
Qed.

Lemma missing_rate_bills_nothing_witness :
  get_rate (set_settings [] db_scenario_A) = (Ok (Dec.of_Z 0), set_settings [] db_scenario_A)
  /\ br_rate (mkBillResult 1 2024 2 (Some (Dec.mk 10000 (-2)))
                (Some (Dec.mk 15000 (-2))) (Dec.mk 5000 (-2)) (Dec.of_Z 0)
                (Dec.mk 0 (-2)) None) = Dec.of_Z 0
  /\ Dec.coef (br_total (mkBillResult 1 2024 2 (Some (Dec.mk 10000 (-2)))
                           (Some (Dec.mk 15000 (-2))) (Dec.mk 5000 (-2)) (Dec.of_Z 0)
                           (Dec.mk 0 (-2)) None)) = 0.
Proof.
  apply (missing_rate_bills_nothing (set_settings [] db_scenario_A) 1 2024 2).
  - intros v [].
  - reflexivity.
Defined.

Lemma find_key_replaced key value (l : list (string * string)) :
  existsb (fun kv => String.eqb (fst kv) key) l = true ->
  find (fun kv => String.eqb (fst kv) key)
    (map (fun kv => if String.eqb (fst kv) key then (key, value) else kv) l)
  = Some (key, value).
Proof.
  induction l as [|[k v] t IH]; simpl; [discriminate|].
  destruct (String.eqb k key) eqn:E; simpl.
  - rewrite String.eqb_refl. reflexivity.
  - rewrite E. exact IH.
Qed.

Lemma find_key_other key key' value (l : list (string * string)) :
  key' <> key ->
  find (fun kv => String.eqb (fst kv) key')
    (map (fun kv => if String.eqb (fst kv) key then (key, value) else kv) l)
  = find (fun kv => String.eqb (fst kv) key') l.
Proof.
  intros Hne. induction l as [|[k v] t IH]; simpl; [reflexivity|].
  destruct (String.eqb k key) eqn:E; simpl.
  - apply String.eqb_eq in E. subst k.
    destruct (String.eqb_spec key key'); [congruence|]. exact IH.
  - rewrite IH. reflexivity.
Qed.

Lemma find_app_one {A} (f : A -> bool) l x :
  find f (l ++ [x]) = match find f l with
                      | Some y => Some y
                      | None => if f x then Some x else None
                      end.
Proof.
  induction l as [|y t IH]; simpl; [reflexivity|].
  destruct (f y); [reflexivity | exact IH].
Qed.

(** X6 : A value stored with [Setting.set_value] is the one
    [Setting.get_value] returns for that key, whether or not the key was
    there before, and whatever default is passed; the values of the other
    keys are as before. *)
Theorem setting_set_then_get :
  forall db key value default,
    let db' := snd (Setting_set_value key value db) in
    Setting_get_value key default db' = value
    /\ forall key', key' <> key ->
         Setting_get_value key' default db' = Setting_get_value key' default db.
Proof.
  intros db key value default db'. unfold db', Setting_get_value, Setting_set_value.
  simpl. split.
  - rewrite find_key_replaced; [reflexivity|].
    destruct (existsb _ (settings db)) eqn:E; [exact E|].
    rewrite existsb_app. simpl. rewrite String.eqb_refl.
    rewrite orb_true_r. reflexivity.
  - intros key' Hne. rewrite find_key_other by assumption.
    destruct (existsb _ (settings db)); [reflexivity|].
    rewrite find_app_one. destruct (find _ (settings db)); [reflexivity|].
    simpl. destruct (String.eqb_spec key key'); [congruence | reflexivity].
Qed.

(** Saving a rate and billing: the bill uses the rate just stored. *)
Lemma rate_after_set_value db text rate :
  Decimal_of_string text = Some rate ->
  get_rate (snd (Setting_set_value "electricity_rate_per_unit" text db))
  = (Ok rate, snd (Setting_set_value "electricity_rate_per_unit" text db)).
Proof.
  intros H. unfold get_rate.
  destruct (setting_set_then_get db "electricity_rate_per_unit" text "0") as [Hget _].
  rewrite Hget, H. reflexivity.
Qed.

(** ** Validating a new reading *)

Lemma Date_not_ltb_eqb a b :
  Date.ltb a b = false -> Date.ltb b a = false -> Date.eqb a b = true.
Proof.
  unfold Date.ltb, Date.eqb. rewrite (Date_compare_antisym a b).
  destruct (Date.compare a b); simpl; congruence.
Qed.

(** X7 : With at most one reading per room and date,
    [validate_monotonic_readings] refuses a value exactly when the room
    has a reading before the date, and the latest of them is above the
    value.  Readings dated on or after the date play no part. *)
Theorem validate_monotonic_readings_refuses_iff :
  forall db room d v,
    reading_dates_unique db ->
    (validate_monotonic_readings room d v db = false
     <-> exists r, latest_reading (reading_before room d) db r
                   /\ Dec.ltb v (reading_value r) = true).
Proof.
  intros db room d v Huniq. unfold validate_monotonic_readings.
  fold (reading_before room d).
  destruct (first (order_by_desc reading_date
                     (filter (reading_before room d) (readings db))))
    as [p|] eqn:E.
  - pose proof (first_latest_reading _ _ _ E) as Hp. split.
    + destruct (Dec.ltb v (reading_value p)) eqn:Hlt; [|discriminate].
      intros _. exists p. auto.
    + intros (r & (Hin & HP & Hlatest) & Hlt).
      destruct Hp as (Hin' & HP' & Hlatest').
      assert (p = r).
      { apply Huniq; try assumption.
        - unfold reading_before in HP, HP'.
          apply andb_prop in HP, HP'. destruct HP as [HP _], HP' as [HP' _].
          apply Z.eqb_eq in HP, HP'. congruence.
        - apply Date_not_ltb_eqb; [apply Hlatest' | apply Hlatest]; assumption. }
      subst r. rewrite Hlt. reflexivity.
  - split; [discriminate|].
    intros (r & (Hin & HP & _) & _).
    rewrite (first_no_reading _ _ E r Hin) in HP. discriminate.
Qed.

Lemma validate_monotonic_readings_refuses_iff_witness :
  validate_monotonic_readings 1 (feb 20) (Dec.mk 12000 (-2)) db_scenario_A = false
  <-> exists r, latest_reading (reading_before 1 (feb 20)) db_scenario_A r
                /\ Dec.ltb (Dec.mk 12000 (-2)) (reading_value r) = true.
Proof.
  apply (validate_monotonic_readings_refuses_iff db_scenario_A 1 (feb 20)
           (Dec.mk 12000 (-2))).
  intros r1 r2 [<-|[<-|[]]] [<-|[<-|[]]] _ H; try reflexivity; discriminate H.
Defined.

(** A value above every earlier reading is accepted even when a later
    reading of the room is below it: 200 on 20 January passes although
    15 February reads 150. *)
Lemma validate_monotonic_readings_ignores_later :
  validate_monotonic_readings 1 (jan 20) (Dec.mk 20000 (-2)) db_scenario_A = true
  /\ validate_monotonic_readings 1 (feb 20) (Dec.mk 12000 (-2)) db_scenario_A = false.
Proof. split; reflexivity. Qed.

(** ** Billing summary *)





(** ** What saving a lease does to rooms *)

Lemma Lease_clean_db l db : snd (Lease_clean l db) = db.
Proof.
  unfold Lease_clean, bind, related_room, get, raise, ret.
  destruct (end_not_after_start l); [reflexivity|].
  destruct (is_active l && negb (pk_truthy l));
    [|destruct (is_active l && pk_truthy l)];
    try reflexivity;
    destruct (find_room (lease_room l) db); try reflexivity;
    destruct (exists_ _); reflexivity.
Qed.

(** X9 : [Lease.save] writes a room only for a new active lease or a
    persisted ended one.  Saving a persisted lease with status active, or
    a new lease with status ended, leaves every room as it was; so a lease
    put back from ended to active is stored as active while its room
    keeps the status vacant. *)
Theorem lease_save_keeps_rooms :
  forall db l,
    is_active l = pk_truthy l ->
    rooms (snd (Lease_save l db)) = rooms db.
Proof.
  intros db l H. unfold Lease_save.
  assert (Hended : is_ended l = negb (is_active l))
    by (unfold is_ended, is_active; destruct (lease_status l); reflexivity).
  rewrite Hended, H.
  replace (pk_truthy l && negb (pk_truthy l)) with false by (destruct (pk_truthy l); reflexivity).
  replace (negb (pk_truthy l) && pk_truthy l) with false by (destruct (pk_truthy l); reflexivity).
  unfold bind at 1. pose proof (Lease_clean_db l db) as Hc.
  destruct (Lease_clean l db) as [[u|e] d]; simpl in Hc; subst d; [|reflexivity].
  unfold bind, ret. apply Model_save_lease_rooms.
Qed.

Lemma lease_save_keeps_rooms_witness :
  rooms (snd (Lease_save
                (mkLease (Some 1) 1 1 (jan 1) (Some (jan 31)) (Dec.mk 500000 (-2))
                   (Dec.of_Z 0) 1 active)
                (snd (end_lease alice_lease (jan 31) db_alice))))
  = rooms (snd (end_lease alice_lease (jan 31) db_alice)).
Proof.
  apply (lease_save_keeps_rooms (snd (end_lease alice_lease (jan 31) db_alice))).
  reflexivity.
Defined.

(** Alice's lease ended and saved again as active: the save succeeds,
    the lease is active, the room still reads vacant. *)
Lemma reactivated_lease_leaves_room_vacant :
  let db := snd (end_lease alice_lease (jan 31) db_alice) in
  let l := mkLease (Some 1) 1 1 (jan 1) (Some (jan 31)) (Dec.mk 500000 (-2))
             (Dec.of_Z 0) 1 active in
  fst (Lease_save l db) = Ok l
  /\ find_lease 1 (snd (Lease_save l db)) = Some l
  /\ find_room 1 (snd (Lease_save l db)) = Some (mkRoom 1 "101" vacant).
Proof. repeat split. Qed.

Lemma filter_none {A} (f : A -> bool) l :
  (forall x, In x l -> f x = false) -> filter f l = [].
Proof.
  induction l as [|x t IH]; simpl; intros H; [reflexivity|].
  rewrite (H x (or_introl eq_refl)). apply IH. intros y Hy. apply H. right. exact Hy.
Qed.

Lemma existsb_none {A} (f : A -> bool) l :
  (forall x, In x l -> f x = false) -> existsb f l = false.
Proof.
  induction l as [|x t IH]; simpl; intros H; [reflexivity|].
  rewrite (H x (or_introl eq_refl)). apply IH. intros y Hy. apply H. right. exact Hy.
Qed.

Lemma no_active_leases r db :
  (forall l, In l (leases db) -> active_on r l = false) -> active_leases r db = [].
Proof.
  intros H. unfold active_leases.
  rewrite (filter_none
             (fun l => (lease_room l =? r) && LeaseStatus_eqb (lease_status l) active)
             (leases db) H).
  reflexivity.
Qed.

Lemma find_room_id r db room : find_room r db = Some room -> room_id room = r.
Proof. intros H. apply find_some in H. destruct H as [_ H]. apply Z.eqb_eq, H. Qed.

(** Validation of a new active lease on a room without active lease. *)
Lemma Lease_clean_new db l r :
  end_not_after_start l = false ->
  is_active l = true -> pk_truthy l = false ->
  find_room (lease_room l) db = Some r ->
  (forall x, In x (leases db) -> active_on (lease_room l) x = false) ->
  Lease_clean l db = (Ok tt, db).
Proof.
  intros Hd Ha Hp Hroom Hfree. unfold Lease_clean. rewrite Hd, Ha, Hp. simpl.
  unfold bind, related_room, get. rewrite Hroom, (find_room_id _ _ _ Hroom).
  rewrite (no_active_leases _ _ Hfree). reflexivity.
Qed.

(** The write of a new lease under the next identifier. *)
Lemma Model_save_lease_insert db l :
  lease_pk l = None ->
  end_date_after_start_date l = true ->
  monthly_rent_positive l = true ->
  (forall x, In x (leases db) -> active_on (lease_room l) x = false) ->
  keys_below_next db ->
  Model_save_lease l db
  = (Ok (lease_with_pk (next_lease_id db) l),
     set_leases (leases db ++ [lease_with_pk (next_lease_id db) l])
       (next_lease_id db + 1) db).
Proof.
  intros Hpk Hd Hr Hfree Hkeys. unfold Model_save_lease. rewrite Hpk.
  change (end_date_after_start_date (lease_with_pk (next_lease_id db) l))
    with (end_date_after_start_date l).
  change (monthly_rent_positive (lease_with_pk (next_lease_id db) l))
    with (monthly_rent_positive l).
  rewrite Hd, Hr. unfold unique_active_lease_per_room.
  assert (He : existsb (fun x => (lease_room x =? lease_room (lease_with_pk (next_lease_id db) l))
                                 && is_active x)
                 (filter (fun x => negb (pk_is (next_lease_id db) x)) (leases db)) = false).
  { apply existsb_none. intros x Hx. apply filter_In in Hx. apply (Hfree x), Hx. }
  rewrite He, andb_false_r. simpl.
  assert (Hp : existsb (pk_is (next_lease_id db)) (leases db) = false).
  { apply existsb_none. intros x Hx. destruct (Hkeys x Hx) as (k & Hk & Hlt).
    unfold pk_is. rewrite Hk. apply Z.eqb_neq. lia. }
  rewrite Hp. replace (Z.max (next_lease_id db) (next_lease_id db + 1))
    with (next_lease_id db + 1) by lia. reflexivity.
Qed.

(** X10 : [Lease.save] is not atomic: the room is written before the lease
    row.  For a new active lease on a free room whose rent is not positive,
    validation passes, the room is marked occupied, and the write of the
    lease is then refused by the rent constraint: the call raises
    [IntegrityError], the room is left occupied and no lease is stored. *)
Theorem lease_save_refused_after_room_write :
  forall db l r,
    lease_pk l = None ->
    is_active l = true ->
    end_not_after_start l = false ->
    find_room (lease_room l) db = Some r ->
    (forall x, In x (leases db) -> active_on (lease_room l) x = false) ->
    monthly_rent_positive l = false ->
    exists db',
      Lease_save l db = (Raise IntegrityError, db')
      /\ leases db' = leases db
      /\ find_room (lease_room l) db'
         = Some (mkRoom (room_id r) (room_number r) occupied).
Proof.
  intros db l r Hpk Ha Hd Hroom Hfree Hrent.
  assert (Hp : pk_truthy l = false) by (unfold pk_truthy; rewrite Hpk; reflexivity).
  exists (set_rooms (map (with_status (lease_room l) occupied) (rooms db)) db).
  split; [|split].
  - unfold Lease_save.
    rewrite (bind_Ok _ _ _ _ _ (Lease_clean_new db l r Hd Ha Hp Hroom Hfree)).
    rewrite Ha, Hp. simpl.
    rewrite (bind_Ok _ _ _ _ _ (room_set_status_run _ occupied _ _ Hroom)).
    unfold Model_save_lease. rewrite Hpk.
    change (monthly_rent_positive (lease_with_pk _ l)) with (monthly_rent_positive l).
    rewrite Hrent, andb_false_r. reflexivity.
  - reflexivity.
  - apply find_with_status, Hroom.
Qed.

Lemma lease_save_refused_after_room_write_witness :
  exists db',
    Lease_save (mkLease None 1 1 (jan 1) None (Dec.of_Z 0) (Dec.of_Z 0) 1 active)
      empty_db = (Raise IntegrityError, db')
    /\ leases db' = leases empty_db
    /\ find_room (lease_room (mkLease None 1 1 (jan 1) None (Dec.of_Z 0)
                                (Dec.of_Z 0) 1 active)) db'
       = Some (mkRoom (room_id room101) (room_number room101) occupied).
Proof.
  apply (lease_save_refused_after_room_write empty_db
           (mkLease None 1 1 (jan 1) None (Dec.of_Z 0) (Dec.of_Z 0) 1 active)
           room101); try reflexivity.
  intros x [].
Defined.

(** ** Creating a lease *)

Lemma Lease_save_new db l r :
  lease_pk l = None ->
  is_active l = true ->
  end_date l = None ->
  find_room (lease_room l) db = Some r ->
  (forall x, In x (leases db) -> active_on (lease_room l) x = false) ->
  monthly_rent_positive l = true ->
  keys_below_next db ->
  Lease_save l db
  = (Ok (lease_with_pk (next_lease_id db) l),
     set_leases (leases db ++ [lease_with_pk (next_lease_id db) l])
       (next_lease_id db + 1)
       (set_rooms (map (with_status (lease_room l) occupied) (rooms db)) db)).
Proof.
  intros Hpk Ha Hend Hroom Hfree Hrent Hkeys.
  assert (Hp : pk_truthy l = false) by (unfold pk_truthy; rewrite Hpk; reflexivity).
  assert (Hd : end_not_after_start l = false)
    by (unfold end_not_after_start; rewrite Hend; reflexivity).
  unfold Lease_save.
  rewrite (bind_Ok _ _ _ _ _ (Lease_clean_new db l r Hd Ha Hp Hroom Hfree)).
  rewrite Ha, Hp. simpl.
  rewrite (bind_Ok _ _ _ _ _ (room_set_status_run _ occupied _ _ Hroom)).
  apply (Model_save_lease_insert
           (set_rooms (map (with_status (lease_room l) occupied) (rooms db)) db) l);
    try assumption.
  unfold end_date_after_start_date. rewrite Hend. reflexivity.
Qed.

Lemma create_lease_run db tenant room start rent_amount dep bday r fm :
  find_room (room_id room) db = Some r ->
  (forall x, In x (leases db) -> active_on (room_id room) x = false) ->
  0 < Dec.coef rent_amount ->
  1 <= bday <= 28 ->
  Date.make (Date.year start) (Date.month start) 1 = Ok fm ->
  keys_below_next db ->
  let lease := mkLease (Some (next_lease_id db)) (tenant_id tenant) (room_id room)
                 start None rent_amount dep bday active in
  let db3 :=
    set_rooms
      (map (with_status (room_id room) occupied)
         (map (with_status (room_id room) occupied) (rooms db)))
      (set_leases (leases db ++ [lease]) (next_lease_id db + 1) db) in
  create_lease tenant room start rent_amount dep bday db
  = if existsb (same_invoice_key (room_id room) fm rent) (invoices db) then
      (Raise IntegrityError, db)
    else
      (Ok lease,
       set_items
         (items db ++ [mkInvoiceItem (next_item_id db) (next_invoice_id db)
                         (RentFor fm) (Dec.of_Z 1) rent_amount rent_amount])
         (next_item_id db + 1)
         (set_invoices
            (invoices db ++ [mkInvoice (next_invoice_id db) (room_id room) fm rent
                               rent_amount (Dec.of_Z 0) rent_amount
                               [("rent", Some rent_amount)]])
            (next_invoice_id db + 1) db3)).
Proof.
  intros Hroom Hfree Hrent Hbday Hfm Hkeys lease db3.
  unfold create_lease, atomic.
  unfold bind at 1. unfold get at 1.
  rewrite (no_active_leases _ _ Hfree). simpl.
  destruct (Z.leb_spec (Dec.coef rent_amount) 0); [lia|].
  destruct (Z.leb_spec 1 bday); [|lia]. destruct (Z.leb_spec bday 28); [|lia]. simpl.
  assert (Hsave := Lease_save_new db
            (mkLease None (tenant_id tenant) (room_id room) start None rent_amount
               dep bday active) r eq_refl eq_refl eq_refl Hroom Hfree).
  simpl in Hsave. rewrite (bind_Ok _ _ _ _ _ (Hsave ltac:(apply Z.ltb_lt; assumption) Hkeys)).
  unfold bind at 1.
  rewrite (room_update_status_run (room_id room) occupied
             (mkRoom (room_id r) (room_number r) occupied));
    [|apply find_with_status, Hroom].
  unfold bind at 1. unfold lift at 1. rewrite Hfm.
  unfold bind, Invoice_create, InvoiceItem_create, ret. simpl.
  destruct (existsb _ (invoices db)); reflexivity.
Qed.



(** X12 : When the room already has a rent invoice for the month of the
    start date (a lease of the same room began earlier that month, or the
    month's rent was already invoiced), [create_lease] raises
    [IntegrityError] on the first invoice and the transaction is rolled
    back: no lease is stored and the room keeps its status, although every
    validation passed. *)
Theorem create_lease_blocked_by_month_invoice :
  forall db tenant room start rent_amount dep bday r fm,
    find_room (room_id room) db = Some r ->
    (forall x, In x (leases db) -> active_on (room_id room) x = false) ->
    0 < Dec.coef rent_amount ->
    1 <= bday <= 28 ->
    Date.make (Date.year start) (Date.month start) 1 = Ok fm ->
    keys_below_next db ->
    existsb (same_invoice_key (room_id room) fm rent) (invoices db) = true ->
    create_lease tenant room start rent_amount dep bday db = (Raise IntegrityError, db).
Proof.
  intros db tenant room start rent_amount dep bday r fm
    Hroom Hfree Hrent Hbday Hfm Hkeys Hinv.
  rewrite (create_lease_run db tenant room start rent_amount dep bday r fm
             Hroom Hfree Hrent Hbday Hfm Hkeys).
  rewrite Hinv. reflexivity.
Qed.

Lemma create_lease_blocked_by_month_invoice_witness :
  create_lease bob room101 (jan 20) (Dec.mk 500000 (-2)) (Dec.of_Z 0) 1
    (snd (end_lease alice_lease (jan 15) db_alice))
  = (Raise IntegrityError, snd (end_lease alice_lease (jan 15) db_alice)).
Proof.
  apply (create_lease_blocked_by_month_invoice
           (snd (end_lease alice_lease (jan 15) db_alice)) bob room101 (jan 20)
           (Dec.mk 500000 (-2)) (Dec.of_Z 0) 1 (mkRoom 1 "101" vacant) (jan 1));
    try reflexivity.
  - intros x [<-|[]]. reflexivity.
  - lia.
  - intros x [<-|[]]. exists 1. split; [reflexivity | simpl; lia].
Defined.

(** ** Ending a lease *)





(** ** Assigning a tenant from the room page *)



(** X15 : For a room that exists, [create_lease_for_room] always returns a
    flash message: whatever goes wrong while the lease is created (unknown
    tenant, a refused write) is caught and reported, never raised. *)
Theorem create_lease_for_room_never_raises :
  forall db room tenant start rent_amount dep bday r,
    find_room room db = Some r ->
    exists flash db',
      create_lease_for_room room tenant start rent_amount dep bday db
      = (Ok flash, db').
Proof.
  intros db room tenant start rent_amount dep bday r Hroom.
  unfold create_lease_for_room. unfold bind at 1. unfold get at 1. rewrite Hroom.
  destruct (exists_ (active_leases room db)); [eexists; eexists; reflexivity|].
  match goal with |- context [match ?m db with _ => _ end] =>
    destruct (m db) as [[f|e] d] end;
    [eauto|].
  destruct e; try (eexists; eexists; reflexivity).
  destruct (String.eqb model "Tenant"); eexists; eexists; reflexivity.
Qed.

Lemma create_lease_for_room_never_raises_witness :
  exists flash db',
    create_lease_for_room 1 9 (jan 1) (Dec.of_Z 0) (Dec.of_Z 0) 1 empty_db
    = (Ok flash, db').
Proof.
  apply (create_lease_for_room_never_raises empty_db 1 9 (jan 1) (Dec.of_Z 0)
           (Dec.of_Z 0) 1 room101).
  reflexivity.
Defined.

(** ** Payments and the balance of a lease *)





(** Scenario E: a payment of zero or less, or on a lease that is not
    active, is refused with a validation error and nothing is written. *)
Lemma record_payment_refused db lease amount on method notes :
  Dec.coef amount <= 0 \/ is_active lease = false ->
  exists msg,
    record_payment lease amount on method notes db = (Raise (ValidationError msg), db).
Proof.
  intros H. unfold record_payment, atomic.
  destruct (Z.leb_spec (Dec.coef amount) 0); [eexists; reflexivity|].
  destruct H as [H|H]; [lia|]. rewrite H. eexists; reflexivity.
Qed.




(** A zero amount is stored over Alice's payment of January, while the
    same call is refused when the month has no payment yet. *)
Lemma mark_invoice_paid_zero_amount :
  map payment_amount (payments db_alice_paid) = [Dec.mk 500000 (-2)]
  /\ map payment_amount
       (payments (snd (mark_invoice_paid alice_invoice (Dec.of_Z 0) (jan 10) "Cash"
                         db_alice_paid))) = [Dec.of_Z 0]
  /\ fst (mark_invoice_paid alice_invoice (Dec.of_Z 0) (jan 10) "Cash" db_alice)
     = Raise (ValidationError "Payment amount must be positive").
Proof. repeat split. Qed.

(** ** The badge without an invoice or without a lease *)

(** X18 : Without an active lease the badge is Maintenance when the room's
    status is maintenance and Vacant otherwise, whatever invoices exist,
    and nothing else is looked up.  With an active lease, whenever the
    snapshot is returned the badge is one of OK, Overdue and Due Soon,
    whatever the room's own status, and it is OK when the room has no
    invoice.  The snapshot never writes. *)
Theorem room_badge_by_lease :
  forall db room leases_list invoices_list today,
    snd (get_room_finance_snapshot room leases_list invoices_list today db) = db
    /\ match (match leases_list with
              | Some l => first l
              | None => first (active_leases (room_id room) db)
              end) with
       | None =>
         exists snap,
           fst (get_room_finance_snapshot room leases_list invoices_list today db)
           = Ok snap
           /\ snap_active_lease snap = None
           /\ snap_last_invoice snap = None
           /\ snap_badge snap
              = (if RoomStatus_eqb (room_status room) maintenance
                 then "Maintenance" else "Vacant")%string
       | Some lease =>
         forall snap,
           fst (get_room_finance_snapshot room leases_list invoices_list today db)
           = Ok snap ->
           snap_active_lease snap = Some lease
           /\ (snap_badge snap = "OK" \/ snap_badge snap = "Overdue"
               \/ snap_badge snap = "Due Soon")%string
           /\ (first (match invoices_list with
                      | Some l => l
                      | None => recent_invoices_of room db
                      end) = None -> snap_badge snap = "OK"%string)
       end.
Proof.
  intros db room leases_list invoices_list today.
  remember (get_room_finance_snapshot room leases_list invoices_list today db)
    as res eqn:Hres.
  unfold get_room_finance_snapshot, bind, get, related_tenant, lift, ret in Hres.
  cbv beta iota in Hres.
  destruct (match leases_list with
            | Some l => first l
            | None => first (active_leases (room_id room) db)
            end) as [lease|].
  - destruct (find_tenant (lease_tenant lease) db) as [t|];
      [|subst res; split; [reflexivity | intros snap; discriminate]].
    destruct (first (match invoices_list with
                     | Some l => l
                     | None => recent_invoices_of room db
                     end)) as [inv|].
    + destruct (Date.add_days (invoice_month inv) 5) as [due|];
        [|subst res; split; [reflexivity | intros snap; discriminate]].
      destruct (exists_ _);
        [subst res; split;
           [reflexivity | intros snap [= <-]; simpl; intuition discriminate]|].
      destruct (Date.ltb due today);
        [subst res; split;
           [reflexivity | intros snap [= <-]; simpl; intuition discriminate]|].
      destruct (Date.add_days due (-3)) as [soon|];
        [|subst res; split; [reflexivity | intros snap; discriminate]].
      destruct (Date.ltb soon today);
        (subst res; split;
           [reflexivity | intros snap [= <-]; simpl; intuition discriminate]).
    + subst res. split; [reflexivity|]. intros snap [= <-]. simpl. auto.
  - destruct (RoomStatus_eqb (room_status room) maintenance);
      subst res; (split; [reflexivity|]); eexists; (split; [reflexivity|]);
      simpl; auto.
Qed.

(** ** Rent invoices through the API *)

Ltac run_rent_view :=
  unfold rent_invoice_create, catch_ValueError, atomic, bind, get, lift, ret,
    raise, related_room, related_tenant, Invoice_create, InvoiceItem_create;
  cbv beta iota.

Lemma rent_when_existing db lease_id year month lease room fm inv :
  lease_id <> 0 -> find_lease lease_id db = Some lease ->
  Date.make year month 1 = Ok fm ->
  find_room (lease_room lease) db = Some room ->
  existing_rent_invoice (room_id room) fm db = Some inv ->
  rent_invoice_create lease_id year month db
  = (Ok (mkResponse 200 (MessageInvoice "Invoice already exists" inv)), db).
Proof.
  intros Hnz Hl Hfm Hroom Hex. apply Z.eqb_neq in Hnz. run_rent_view.
  step_with Hnz. step_with Hl. step_with Hfm. step_with Hroom. step_with Hex.
  reflexivity.
Qed.

Lemma rent_invoice_create_cases db lease_id year month :
  (exists res, rent_invoice_create lease_id year month db = (res, db)
               /\ ~ invoice_message res)
  \/ (exists lease room fm inv,
        lease_id <> 0 /\ find_lease lease_id db = Some lease
        /\ Date.make year month 1 = Ok fm
        /\ find_room (lease_room lease) db = Some room
        /\ existing_rent_invoice (room_id room) fm db = Some inv
        /\ rent_invoice_create lease_id year month db
           = (Ok (mkResponse 200 (MessageInvoice "Invoice already exists" inv)), db))
  \/ (exists lease room fm tenant,
        lease_id <> 0 /\ find_lease lease_id db = Some lease
        /\ Date.make year month 1 = Ok fm
        /\ find_room (lease_room lease) db = Some room
        /\ existing_rent_invoice (room_id room) fm db = None
        /\ rent_invoice_create lease_id year month db
           = (Ok (mkResponse 201
                    (MessageInvoice "Invoice created successfully"
                       (rent_invoice_of lease lease_id room fm tenant db))),
              after_rent_invoice lease lease_id room fm tenant db)).
Proof.
  destruct (lease_id =? 0) eqn:Hz.
  { left; eexists; split; [run_rent_view; step_with Hz; reflexivity|].
    simpl; tauto. }
  assert (Hnz : lease_id <> 0) by (apply Z.eqb_neq, Hz).
  destruct (find_lease lease_id db) as [lease|] eqn:Hl.
  2: { left; eexists; split;
         [run_rent_view; step_with Hz; step_with Hl; reflexivity|].
       simpl; tauto. }
  destruct (Date.make year month 1) as [fm|e] eqn:Hfm.
  2: { destruct e; (left; eexists; split;
         [run_rent_view; step_with Hz; step_with Hl; step_with Hfm; reflexivity|]);
       simpl; tauto. }
  destruct (find_room (lease_room lease) db) as [room|] eqn:Hroom.
  2: { left; eexists; split;
         [run_rent_view; step_with Hz; step_with Hl; step_with Hfm;
          step_with Hroom; reflexivity|].
       simpl; tauto. }
  destruct (existing_rent_invoice (room_id room) fm db) as [inv|] eqn:Hex.
  { right; left. exists lease, room, fm, inv. repeat split; try assumption.
    apply (rent_when_existing db lease_id year month lease room fm inv); assumption. }
  destruct (find_tenant (lease_tenant lease) db) as [tenant|] eqn:Ht.
  2: { left; eexists; split;
         [run_rent_view; step_with Hz; step_with Hl; step_with Hfm;
          step_with Hroom; step_with Hex; step_with Ht; reflexivity|].
       simpl; tauto. }
  right; right. exists lease, room, fm, tenant. repeat split; try assumption.
  run_rent_view. step_with Hz. step_with Hl. step_with Hfm. step_with Hroom.
  step_with Hex. step_with Ht.
  unfold existing_rent_invoice in Hex.
  rewrite (first_filter_None _ _ Hex). reflexivity.
Qed.

Lemma existing_rent_after lease lease_id room fm tenant db :
  existing_rent_invoice (room_id room) fm db = None ->
  filter (same_invoice_key (room_id room) fm rent)
    (invoices (after_rent_invoice lease lease_id room fm tenant db))
  = [rent_invoice_of lease lease_id room fm tenant db].
Proof.
  intros Hex. unfold after_rent_invoice; simpl.
  apply first_filter_app_new; [exact Hex|].
  unfold same_invoice_key, rent_invoice_of; simpl.
  rewrite Z.eqb_refl, Date_eqb_refl. reflexivity.
Qed.

(** X19 : Rent invoice creation through the API is idempotent on (room,
    month): a second call with the same lease and month never changes the
    database the first call left; when the first call answered with an
    invoice, the second answers "Invoice already exists" with that same
    invoice, which is the only rent invoice of the room for the month.  An
    invoice it creates bills the monthly rent of the lease as subtotal and
    total, without tax. *)
Theorem rent_invoice_idempotent :
  forall db lease_id year month,
    (forall r fm t,
       (List.length (filter (same_invoice_key r fm t) (invoices db)) <= 1)%nat) ->
    let a1 := rent_invoice_create lease_id year month db in
    let a2 := rent_invoice_create lease_id year month (snd a1) in
    snd a2 = snd a1
    /\ forall code msg inv,
         fst a1 = Ok (mkResponse code (MessageInvoice msg inv)) ->
         fst a2 = Ok (mkResponse 200 (MessageInvoice "Invoice already exists" inv))
         /\ exists lease room fm,
              find_lease lease_id db = Some lease
              /\ find_room (lease_room lease) db = Some room
              /\ Date.make year month 1 = Ok fm
              /\ filter (same_invoice_key (room_id room) fm rent) (invoices (snd a1))
                 = [inv]
              /\ (code = 201 ->
                  invoice_subtotal inv = monthly_rent lease
                  /\ invoice_total inv = monthly_rent lease
                  /\ invoice_tax inv = Dec.of_Z 0).
Proof.
  intros db lease_id year month Huniq a1 a2. unfold a2, a1.
  destruct (rent_invoice_create_cases db lease_id year month)
    as [(res & Hrun & Hres)
       | [(lease & room & fm & inv & Hnz & Hl & Hfm & Hroom & Hex & Hrun)
         | (lease & room & fm & tenant & Hnz & Hl & Hfm & Hroom & Hex & Hrun)]];
    rewrite Hrun; simpl.
  - rewrite Hrun. split; [reflexivity|]. intros code msg inv ->. elim Hres. exact I.
  - rewrite Hrun. split; [reflexivity|]. intros code msg inv' [= <- <- <-].
    split; [reflexivity|]. exists lease, room, fm. repeat split; try assumption.
    + unfold existing_rent_invoice in Hex.
      destruct (filter _ _) as [|x [|y t]] eqn:E; simpl in Hex;
        [discriminate | congruence |].
      pose proof (Huniq (room_id room) fm rent) as Hlen. rewrite E in Hlen.
      simpl in Hlen. lia.
    + discriminate.
    + discriminate.
    + discriminate.
  - pose proof (existing_rent_after lease lease_id room fm tenant db Hex) as Hnew.
    rewrite (rent_when_existing (after_rent_invoice lease lease_id room fm tenant db)
               lease_id year month lease room fm
               (rent_invoice_of lease lease_id room fm tenant db) Hnz Hl Hfm Hroom);
      [|unfold existing_rent_invoice; rewrite Hnew; reflexivity].
    split; [reflexivity|]. intros code msg inv' [= <- <- <-].
    split; [reflexivity|]. exists lease, room, fm. repeat split; assumption.
Qed.

Lemma rent_invoice_idempotent_witness :
  let a1 := rent_invoice_create 1 2024 2 db_alice in
  let a2 := rent_invoice_create 1 2024 2 (snd a1) in
  snd a2 = snd a1
  /\ forall code msg inv,
       fst a1 = Ok (mkResponse code (MessageInvoice msg inv)) ->
       fst a2 = Ok (mkResponse 200 (MessageInvoice "Invoice already exists" inv))
       /\ exists lease room fm,
            find_lease 1 db_alice = Some lease
            /\ find_room (lease_room lease) db_alice = Some room
            /\ Date.make 2024 2 1 = Ok fm
            /\ filter (same_invoice_key (room_id room) fm rent) (invoices (snd a1))
               = [inv]
            /\ (code = 201 ->
                invoice_subtotal inv = monthly_rent lease
                /\ invoice_total inv = monthly_rent lease
                /\ invoice_tax inv = Dec.of_Z 0).
Proof.
  apply (rent_invoice_idempotent db_alice 1 2024 2).
  intros r fm t. change (invoices db_alice) with [alice_invoice]. simpl.
  destruct (same_invoice_key r fm t alice_invoice); simpl; lia.
Defined.

(** ** The rent collection report *)

Lemma In_Z_range n : forall z x,
  z <= x < z + Z.of_nat n -> In x (Z_range n z).
Proof.
  induction n as [|n IH]; intros z x Hx; [lia|].
  simpl. destruct (Z.eq_dec z x) as [->|Hne]; [now left|].
  right. apply IH. lia.
Qed.

Lemma window_reaches_next_table :
  forallb (fun y =>
    forallb (fun m => window_reaches_next y m || ((y =? 9999) && (m =? 12)))
      (Z_range 12 1))
    (Z_range 9999 1) = true.
Proof. vm_cast_no_check (eq_refl true). Qed.

Lemma window_reaches_next_ok y m :
  month_in_range y m -> window_reaches_next y m = true.
Proof.
  intros (Hy & Hm & Hlast).
  pose proof window_reaches_next_table as Htab.
  assert (Hyears : Z.of_nat 9999 = 9999) by (vm_compute; reflexivity).
  assert (Hin : In y (Z_range 9999 1)) by (apply In_Z_range; lia).
  rewrite forallb_forall in Htab.
  specialize (Htab y Hin). cbv beta in Htab.
  rewrite forallb_forall in Htab.
  specialize (Htab m (In_Z_range 12 1 m ltac:(lia))). cbv beta in Htab.
  apply orb_true_iff in Htab as [H|H]; [exact H|].
  apply andb_true_iff in H as [H1 H2].
  apply Z.eqb_eq in H1, H2. elim Hlast. now split.
Qed.

(** X20 : The rent collection report of a month lists every payment dated in
    that month, lists as well every payment dated on the first day of the
    following month (the window is 32 days long, so such a payment is
    counted in the totals of both months), lists nothing dated before the
    first of the month, and leaves the database as it was.  The month
    December 9999 is left out: there the window end overflows. *)
Theorem rent_report_reaches_next_month :
  forall db y m,
    month_in_range y m ->
    exists l,
      rent_collection_payments y m db = (Ok l, db)
      /\ (forall p, In p (payments db) ->
            Date.year (paid_on p) = y -> Date.month (paid_on p) = m ->
            1 <= Date.day (paid_on p) -> In p l)
      /\ (forall p, In p (payments db) ->
            paid_on p = next_month_start y m -> In p l)
      /\ (forall p, In p l ->
            In p (payments db) /\ Date.ltb (paid_on p) (Date.mk y m 1) = false).
Proof.
  intros db y m Hrange.
  pose proof (window_reaches_next_ok y m Hrange) as Hwin.
  destruct Hrange as (Hy & Hm & Hlast).
  destruct (Date_make_first y m) as [Hmake _].
  specialize (Hmake (conj Hy Hm)).
  unfold window_reaches_next in Hwin.
  destruct (Date.add_days (Date.mk y m 1) 32) as [e|] eqn:Hadd; [|discriminate].
  eexists. split; [|split; [|split]].
  - unfold rent_collection_payments, bind, lift, get, ret.
    rewrite Hmake, Hadd. reflexivity.
  - intros p Hin Hpy Hpm Hpd. apply filter_In. split; [exact Hin|].
    apply andb_true_iff. split.
    + rewrite Date_leb_ltb. apply negb_true_iff.
      rewrite <- Bool.not_true_iff_false, Date_ltb_iff. simpl. lia.
    + apply Date_ltb_iff in Hwin. apply Date_ltb_iff.
      unfold next_month_start in Hwin.
      destruct (Z.eqb_spec m 12); simpl in Hwin; lia.
  - intros p Hin Hp. apply filter_In. split; [exact Hin|].
    rewrite Hp. apply andb_true_iff. split; [|exact Hwin].
    rewrite Date_leb_ltb. apply negb_true_iff.
    rewrite <- Bool.not_true_iff_false, Date_ltb_iff.
    unfold next_month_start. destruct (Z.eqb_spec m 12); simpl; lia.
  - intros p Hp. apply filter_In in Hp as [Hin Hp].
    apply andb_true_iff in Hp as [Hlo _]. split; [exact Hin|].
    rewrite Date_leb_ltb in Hlo. apply negb_true_iff in Hlo. exact Hlo.
Qed.

Lemma rent_report_reaches_next_month_witness :
  exists l,
    rent_collection_payments 2024 1 db_alice_paid = (Ok l, db_alice_paid)
    /\ (forall p, In p (payments db_alice_paid) ->
          Date.year (paid_on p) = 2024 -> Date.month (paid_on p) = 1 ->
          1 <= Date.day (paid_on p) -> In p l)
    /\ (forall p, In p (payments db_alice_paid) ->
          paid_on p = next_month_start 2024 1 -> In p l)
    /\ (forall p, In p l ->
          In p (payments db_alice_paid)
          /\ Date.ltb (paid_on p) (Date.mk 2024 1 1) = false).
Proof.
  apply (rent_report_reaches_next_month db_alice_paid 2024 1).
  unfold month_in_range. lia.
Defined.

(** ** Items of a monthly invoice *)



